(** * Statistics aggregation: a model of [core/lib/stats2.js]

    The module keeps, per worker, a [Stats] object with two maps:
    [_counters] (name to number) and [_customStats] (name to HdrHistogram),
    and offers [counter], [addCustomStat], [reset], [clone], [serialize],
    [deserialize], [combine] and [report].

    Modelling choices.
    - JavaScript objects are mutable and shared by reference, so every
      object lives in a store ([heap]) and is named by a location.  The
      store has one region per kind of object; a location is an index in
      its region, and allocation appends to the region.
    - An object used as a dictionary is an association list in property
      enumeration order: a new key is appended, an existing key is
      updated in place.  Property names are opaque keys: names inherited
      from [Object.prototype] and the array-like [length] property, which
      lodash treats specially, are not distinguished from other names.
    - Counter values are exact integers ([Z]); the arithmetic of [round]
      is carried out on exact rationals ([Q]).  IEEE rounding error, NaN
      and infinities are outside the model, except for the one NaN that
      [report] itself can produce ([undefined / 10]).
    - [hdr-histogram-js] and the built-in [JSON] object are libraries of
      the environment: they are interfaces here ([HdrHistogram], [JSON]),
      each with a small reference implementation further down.
    - An operation returns [None] when it leaves the model (a dangling
      location, or a [_counters] field that [deserialize] filled with
      something that is not a dictionary of numbers); JavaScript
      exceptions are the outcome [Throw]. *)

From Stdlib Require Import ZArith QArith Qround String Ascii List Lqa Lia.
From stdpp Require Import base list strings numbers countable pretty sorting.
Import ListNotations.
Open Scope string_scope.

(** ** Numbers and [round] (stats2.js, lines 197-200) *)

(** [Math.round]: the nearest integer, a tie going to the larger one. *)
Definition Math_round (x : Q) : Z := Qfloor (x + (1 # 2))%Q.

(** [Math.pow(10, decimals)] for a natural number of decimals. *)
Definition Math_pow10 (decimals : nat) : Q := inject_Z (10 ^ Z.of_nat decimals).

Definition round (number : Q) (decimals : nat) : Q :=
  let m := Math_pow10 decimals in
  (inject_Z (Math_round (number * m)) / m)%Q.



(** A JavaScript number that may be NaN. *)
Inductive jsnum := NaN | Num (q : Q).

(** ** Strings *)

(** [s.startsWith(p)] *)
Definition startsWith (s p : string) : bool := String.prefix p s.

(** [s.split(sep)] for a non-empty separator: the pieces between the
    successive, non-overlapping occurrences of [sep], scanning from the
    left.  [skip] counts the characters of a matched separator that are
    still to be dropped; [cur] is the piece being collected. *)
Fixpoint split_go (sep : string) (skip : nat) (cur : string) (s : string)
  : list string :=
  match s with
  | EmptyString => [cur]
  | String c s' =>
      match skip with
      | S k => split_go sep k cur s'
      | O => if String.prefix sep s
             then cur :: split_go sep (String.length sep - 1) "" s'
             else split_go sep 0 (cur ++ String c "") s'
      end
  end.

Definition split (s sep : string) : list string := split_go sep 0 "" s.

(** Using a value as a property name: [undefined] becomes ["undefined"]. *)
Definition prop_key (k : option string) : string := default "undefined" k.

(** ** Objects used as dictionaries *)

Section dictionaries.
Context {V : Type}.

(** [o[k]], [None] standing for [undefined]. *)
Fixpoint obj_get (o : list (string * V)) (k : string) : option V :=
  match o with
  | [] => None
  | (k', v) :: o' => if String.eqb k' k then Some v else obj_get o' k
  end.

(** [o[k] = v] *)
Fixpoint obj_set (o : list (string * V)) (k : string) (v : V)
  : list (string * V) :=
  match o with
  | [] => [(k, v)]
  | (k', v') :: o' =>
      if String.eqb k' k then (k, v) :: o' else (k', v') :: obj_set o' k v
  end.

Definition obj_has (o : list (string * V)) (k : string) : bool :=
  match obj_get o k with Some _ => true | None => false end.
End dictionaries.

(** [!v] for a counter value: [undefined] and [0] are falsy. *)
Definition falsy (v : option Z) : bool :=
  match v with
  | None => true
  | Some z => Z.eqb z 0
  end.

(** ** The environment's libraries *)

(** Values of the JSON data model. *)
#[local] Unset Elimination Schemes.
Inductive json :=
| JNull
| JBool (b : bool)
| JNum (z : Z)
| JStr (s : string)
| JArr (l : list json)
| JObj (kvs : list (string * json)).
#[local] Set Elimination Schemes.

(** The built-in [JSON] object.  [JSON_parse] returns [None] where
    [JSON.parse] throws a SyntaxError. *)
Class JSON := {
  JSON_stringify : json -> string;
  JSON_parse : string -> option json;
  JSON_parse_stringify : forall j, JSON_parse (JSON_stringify j) = Some j
}.

(** [hdr-histogram-js].  A histogram object's state is a value of type
    [histogram]; [recordValue] and [add], which update the object in
    place, are state transformers.  [same_samples] relates two states that
    hold the same recorded samples, whatever their internal layout. *)
Class HdrHistogram := {
  histogram : Type;
  (** [HdrHistogram.build] with the module's fixed configuration *)
  build : histogram;
  recordValue : histogram -> N -> histogram;
  add : histogram -> histogram -> histogram;
  minNonZeroValue : histogram -> Q;
  maxValue : histogram -> Q;
  getValueAtPercentile : histogram -> Q -> Q;
  encodeIntoBase64String : histogram -> string;
  (** [None] where decoding throws *)
  decodeFromCompressedBase64 : string -> option histogram;
  same_samples : histogram -> histogram -> Prop;
  same_samples_equiv :: Equivalence same_samples;
  add_proper : forall a a' b b',
    same_samples a a' -> same_samples b b' -> same_samples (add a b) (add a' b');
  add_comm : forall a b, same_samples (add a b) (add b a);
  add_assoc : forall a b c, same_samples (add (add a b) c) (add a (add b c));
  minNonZeroValue_proper : forall a b,
    same_samples a b -> minNonZeroValue a = minNonZeroValue b;
  maxValue_proper : forall a b, same_samples a b -> maxValue a = maxValue b;
  getValueAtPercentile_proper : forall a b p,
    same_samples a b -> getValueAtPercentile a p = getValueAtPercentile b p;
  decode_after_encode : forall h, exists h',
    decodeFromCompressedBase64 (encodeIntoBase64String h) = Some h'
    /\ same_samples h h'
}.

(** ** The store *)

Definition loc := nat.

(** The value of a [_counters] field: a counters object, or whatever else
    [deserialize] found under [counters] in the payload. *)
Inductive field :=
| FObj (l : loc)
| FVal (v : option json).

Record stats_obj := StatsObj {
  _customStats : option loc;
  _counters : field;
  _encodedHistograms : option loc
}.

Inductive error := SyntaxError | TypeError | DecodeError.

Inductive outcome (A : Type) :=
| Ret (a : A)
| Throw (e : error).
Arguments Ret {A} a.
Arguments Throw {A} e.

(** The object returned by [report]. *)
Record latency_t := Latency {
  latency_min : Q;
  latency_max : Q;
  latency_median : Q;
  latency_p95 : Q;
  latency_p99 : Q
}.

Record customStat_t := CustomStat {
  stat_min : Q;
  stat_max : Q;
  stat_median : Q;
  stat_p75 : Q;
  stat_p95 : Q;
  stat_p99 : Q
}.

Record rps_t := Rps {
  rps_count : option Z;
  rps_mean : jsnum
}.

(** [counters] is a reference to the snapshot's own [_counters] object;
    an absent counter reads as [undefined] ([None]). *)
Record report_t := Report {
  timestamp : string;
  scenariosCreated : option Z;
  scenarioCounts : list (string * Z);
  scenariosCompleted : option Z;
  requestsCompleted : option Z;
  latency : latency_t;
  rps : rps_t;
  errors : list (string * Z);
  codes : list (string * Z);
  matches : option Z;
  customStats : list (string * customStat_t);
  counters : loc;
  scenariosAvoided : option Z
}.

Section model.
Context `{HdrHistogram} `{JSON}.

Record heap := Heap {
  stats_objs : list stats_obj;
  counter_objs : list (list (string * Z));
  histo_maps : list (list (string * loc));
  encoded_maps : list (list (string * string));
  histos : list histogram
}.

Definition empty_heap : heap := Heap [] [] [] [] [].

(** A region of the store: how to read it off and how to replace it. *)
Record region (T : Type) := Region {
  rget : heap -> list T;
  rset : list T -> heap -> heap
}.
Arguments rget {T} r.
Arguments rset {T} r.

Definition Rstats : region stats_obj :=
  Region _ stats_objs
    (fun x s => Heap x (counter_objs s) (histo_maps s) (encoded_maps s) (histos s)).
Definition Rcounters : region (list (string * Z)) :=
  Region _ counter_objs
    (fun x s => Heap (stats_objs s) x (histo_maps s) (encoded_maps s) (histos s)).
Definition Rhistmaps : region (list (string * loc)) :=
  Region _ histo_maps
    (fun x s => Heap (stats_objs s) (counter_objs s) x (encoded_maps s) (histos s)).
Definition Rencoded : region (list (string * string)) :=
  Region _ encoded_maps
    (fun x s => Heap (stats_objs s) (counter_objs s) (histo_maps s) x (histos s)).
Definition Rhistos : region histogram :=
  Region _ histos
    (fun x s => Heap (stats_objs s) (counter_objs s) (histo_maps s) (encoded_maps s) x).

(** *** The monad of operations on the store *)

Definition M (A : Type) : Type := heap -> option (outcome A * heap).

Definition ret {A} (a : A) : M A := fun s => Some (Ret a, s).
Definition throw {A} (e : error) : M A := fun s => Some (Throw e, s).
Definition stuck {A} : M A := fun _ => None.

Definition bind {A B} (c : M A) (k : A -> M B) : M B :=
  fun s =>
    match c s with
    | None => None
    | Some (Throw e, s') => Some (Throw e, s')
    | Some (Ret a, s') => k a s'
    end.

Definition lift {A} (o : outcome A) : M A := fun s => Some (o, s).

(** Allocation, read and update of an object of region [r]. *)
Definition new {T} (r : region T) (x : T) : M loc :=
  fun s => Some (Ret (length (rget r s)), rset r (rget r s ++ [x]) s).

Definition read {T} (r : region T) (l : loc) : M T :=
  fun s =>
    match rget r s !! l with
    | Some x => Some (Ret x, s)
    | None => None
    end.

Definition write {T} (r : region T) (l : loc) (x : T) : M unit :=
  fun s =>
    match rget r s !! l with
    | Some _ => Some (Ret tt, rset r (<[l := x]> (rget r s)) s)
    | None => None
    end.

Notation "x <- c1 ;; c2" := (bind c1 (fun x => c2))
  (at level 100, c1 at next level, right associativity).
Notation "c1 ;; c2" := (bind c1 (fun _ => c2))
  (at level 100, right associativity).

(** [L.each(collection, f)] over the entries of a dictionary, in
    enumeration order, for a callback that never returns [false] (none
    of the callbacks of this module returns a value).  The dictionary is
    taken to be a plain one: lodash walks an object with a numeric
    [length] property by index instead. *)
Fixpoint each {A} (l : list A) (f : A -> M unit) : M unit :=
  match l with
  | [] => ret tt
  | x :: l' => f x ;; each l' f
  end.

(** [this._customStats] and [this._counters], as objects. *)
Definition get_customStats (this : loc) : M loc :=
  o <- read Rstats this ;;
  match _customStats o with
  | Some l => ret l
  | None => stuck
  end.

Definition get_counters (this : loc) : M loc :=
  o <- read Rstats this ;;
  match _counters o with
  | FObj l => ret l
  | FVal _ => stuck
  end.

Definition set_customStats (this : loc) (v : loc) : M unit :=
  o <- read Rstats this ;;
  write Rstats this (StatsObj (Some v) (_counters o) (_encodedHistograms o)).

Definition set_counters (this : loc) (v : field) : M unit :=
  o <- read Rstats this ;;
  write Rstats this (StatsObj (_customStats o) v (_encodedHistograms o)).

Definition set_encodedHistograms (this : loc) (v : loc) : M unit :=
  o <- read Rstats this ;;
  write Rstats this (StatsObj (_customStats o) (_counters o) (Some v)).

(** *** [Stats.prototype.reset] (lines 175-179) *)
Definition reset (this : loc) : M loc :=
  cs <- new Rhistmaps [] ;;
  set_customStats this cs ;;
  cc <- new Rcounters [] ;;
  set_counters this (FObj cc) ;;
  ret this.

(** *** [create] and the constructor [Stats] (lines 38-40, 75-77) *)
Definition create : M loc :=
  this <- new Rstats (StatsObj None (FVal None) None) ;;
  reset this.

(** *** [Stats.prototype.counter] (lines 167-173) *)
Definition counter (this : loc) (name : string) (value : Z) : M loc :=
  c <- get_counters this ;;
  m <- read Rcounters c ;;
  (if falsy (obj_get m name)
   then write Rcounters c (obj_set m name 0%Z)
   else ret tt) ;;
  m <- read Rcounters c ;;
  match obj_get m name with
  | Some v => write Rcounters c (obj_set m name (v + value)%Z)
  | None => stuck
  end ;;
  ret this.

(** *** [Stats.prototype.addCustomStat] (lines 151-165) *)
Definition addCustomStat (this : loc) (name : string) (n : N) : M loc :=
  cs <- get_customStats this ;;
  m <- read Rhistmaps cs ;;
  (if obj_has m name
   then ret tt
   else h <- new Rhistos build ;;
        write Rhistmaps cs (obj_set m name h)) ;;
  m <- read Rhistmaps cs ;;
  match obj_get m name with
  | Some h =>
      x <- read Rhistos h ;;
      write Rhistos h (recordValue x n)
  | None => stuck
  end ;;
  ret this.

(** *** [Stats.prototype.free] (lines 193-195) *)
Definition free (this : loc) : M loc := ret this.

(** *** [Stats.prototype.serialize] (lines 181-191) *)

Definition json_of_counters (m : list (string * Z)) : json :=
  JObj (map (fun kv => (kv.1, JNum kv.2)) m).

Definition json_of_encoded (m : list (string * string)) : json :=
  JObj (map (fun kv => (kv.1, JStr kv.2)) m).

(** The object literal handed to [JSON.stringify]; a field whose value
    is [undefined] is left out of the text. *)
Definition payload (counters : option json) (encoded : json) : json :=
  JObj (match counters with
        | Some c => [("counters", c)]
        | None => []
        end ++ [("encodedHistograms", encoded)]).

Definition serialize (this : loc) : M string :=
  e <- new Rencoded [] ;;
  set_encodedHistograms this e ;;
  cs <- get_customStats this ;;
  m <- read Rhistmaps cs ;;
  each m (fun entry =>
    histo <- read Rhistos entry.2 ;;
    em <- read Rencoded e ;;
    write Rencoded e (obj_set em entry.1 (encodeIntoBase64String histo))) ;;
  o <- read Rstats this ;;
  counters <- match _counters o with
              | FObj c => m <- read Rcounters c ;; ret (Some (json_of_counters m))
              | FVal v => ret v
              end ;;
  em <- read Rencoded e ;;
  ret (JSON_stringify (payload counters (json_of_encoded em))).

(** *** [deserialize] (lines 18-32) *)

(** [o[k]] on a parsed value: a TypeError on [null], [undefined] on a
    value without that property. *)
Definition json_prop (o : json) (k : string) : outcome (option json) :=
  match o with
  | JNull => Throw TypeError
  | JObj kvs => Ret (obj_get kvs k)
  | _ => Ret None
  end.

(** The (name, value) pairs that [L.reduce] visits in a parsed value:
    the entries of a (plain) object, the indexed elements of an array,
    the indexed characters of a string, nothing in [undefined], [null],
    a number or a boolean. *)
Definition L_collection (c : option json) : list (string * json) :=
  match c with
  | Some (JObj kvs) => kvs
  | Some (JArr l) => imap (fun i x => (pretty i, x)) l
  | Some (JStr s) =>
      imap (fun i a => (pretty i, JStr (String a ""))) (list_ascii_of_string s)
  | _ => []
  end.

(** [HdrHistogram.decodeFromCompressedBase64] applied to a parsed value:
    only a string can be decoded. *)
Definition decode_value (j : json) : option histogram :=
  match j with
  | JStr s => decodeFromCompressedBase64 s
  | _ => None
  end.

(** A parsed value that is a dictionary of numbers. *)
Definition counters_of_json (j : json) : option (list (string * Z)) :=
  match j with
  | JObj kvs =>
      mapM (fun kv => match kv.2 with
                      | JNum z => Some (kv.1, z)
                      | _ => None
                      end) kvs
  | _ => None
  end.

Definition deserialize (serialized : string) : M loc :=
  match JSON_parse serialized with
  | None => throw SyntaxError
  | Some o =>
      eh <- lift (json_prop o "encodedHistograms") ;;
      acc <- new Rhistmaps [] ;;
      each (L_collection eh) (fun entry =>
        match decode_value entry.2 with
        | None => throw DecodeError
        | Some h =>
            l <- new Rhistos h ;;
            m <- read Rhistmaps acc ;;
            write Rhistmaps acc (obj_set m entry.1 l)
        end) ;;
      result <- create ;;
      c <- lift (json_prop o "counters") ;;
      f <- match c ≫= counters_of_json with
           | Some m => l <- new Rcounters m ;; ret (FObj l)
           | None => ret (FVal c)
           end ;;
      set_counters result f ;;
      set_customStats result acc ;;
      ret result
  end.

(** *** [combine] (lines 45-73) *)
Definition combine (statsObjects : list loc) : M loc :=
  result <- create ;;
  each statsObjects (fun stats =>
    c <- get_counters stats ;;
    m <- read Rcounters c ;;
    each m (fun entry =>
      rc <- get_counters result ;;
      rm <- read Rcounters rc ;;
      (if falsy (obj_get rm entry.1)
       then write Rcounters rc (obj_set rm entry.1 0%Z)
       else ret tt) ;;
      rm <- read Rcounters rc ;;
      match obj_get rm entry.1 with
      | Some v => write Rcounters rc (obj_set rm entry.1 (v + entry.2)%Z)
      | None => stuck
      end) ;;
    cs <- get_customStats stats ;;
    hm <- read Rhistmaps cs ;;
    each hm (fun entry =>
      rs <- get_customStats result ;;
      rm <- read Rhistmaps rs ;;
      (if obj_has rm entry.1
       then ret tt
       else h <- new Rhistos build ;;
            write Rhistmaps rs (obj_set rm entry.1 h)) ;;
      rm <- read Rhistmaps rs ;;
      match obj_get rm entry.1 with
      | Some t =>
          x <- read Rhistos t ;;
          y <- read Rhistos entry.2 ;;
          write Rhistos t (add x y)
      | None => stuck
      end)) ;;
  ret result.

(** *** [Stats.prototype.clone] (lines 79-81) *)

(** [L.cloneDeep] on the histograms of a dictionary.  lodash remembers
    the objects it has copied, so a histogram met twice is copied once. *)
Fixpoint clone_histos (m : list (string * loc)) (memo : list (loc * loc))
  : M (list (string * loc)) :=
  match m with
  | [] => ret []
  | (name, h) :: m' =>
      match list_find (fun p => p.1 = h) memo with
      | Some (_, (_, h')) =>
          rest <- clone_histos m' memo ;;
          ret ((name, h') :: rest)
      | None =>
          x <- read Rhistos h ;;
          h' <- new Rhistos x ;;
          rest <- clone_histos m' ((h, h') :: memo) ;;
          ret ((name, h') :: rest)
      end
  end.

Definition clone (this : loc) : M loc :=
  o <- read Rstats this ;;
  cs' <- match _customStats o with
         | Some cs =>
             m <- read Rhistmaps cs ;;
             m' <- clone_histos m [] ;;
             l <- new Rhistmaps m' ;;
             ret (Some l)
         | None => ret None
         end ;;
  cc' <- match _counters o with
         | FObj c => m <- read Rcounters c ;; l <- new Rcounters m ;; ret (FObj l)
         | FVal v => ret (FVal v)
         end ;;
  e' <- match _encodedHistograms o with
        | Some e => m <- read Rencoded e ;; l <- new Rencoded m ;; ret (Some l)
        | None => ret None
        end ;;
  new Rstats (StatsObj cs' cc' e').

(** *** [Stats.prototype.report] (lines 83-149) *)

(** Lines 89-95: the entries of [result.scenarioCounts]. *)
Definition scenarioCounts_of (cnt : list (string * Z)) : list (string * Z) :=
  fold_left (fun acc entry =>
    if startsWith entry.1 "scenarios.created."
    then obj_set acc (prop_key (split entry.1 "scenarios.created." !! 1%nat)) entry.2
    else acc) cnt [].

(** Lines 115-121: the entries of [result.errors]. *)
Definition errors_of (cnt : list (string * Z)) : list (string * Z) :=
  fold_left (fun acc entry =>
    if startsWith entry.1 "errors."
    then obj_set acc (prop_key (split entry.1 "errors." !! 1%nat)) entry.2
    else acc) cnt [].

(** Lines 123-129: the entries of [result.codes]. *)
Definition codes_of (cnt : list (string * Z)) : list (string * Z) :=
  fold_left (fun acc entry =>
    if startsWith entry.1 "engine.http.response_code"
    then obj_set acc (prop_key (split entry.1 "response_code." !! 1%nat)) entry.2
    else acc) cnt [].

(** Lines 102-108. *)
Definition latency_of (ns : histogram) : latency_t :=
  Latency (round (minNonZeroValue ns) 1)
          (round (maxValue ns) 1)
          (round (getValueAtPercentile ns 50) 1)
          (round (getValueAtPercentile ns 95) 1)
          (round (getValueAtPercentile ns 99) 1).

(** Lines 135-142. *)
Definition customStat_of (ns : histogram) : customStat_t :=
  CustomStat (round (minNonZeroValue ns) 1)
             (round (maxValue ns) 1)
             (round (getValueAtPercentile ns 50) 1)
             (round (getValueAtPercentile ns 75) 1)
             (round (getValueAtPercentile ns 95) 1)
             (round (getValueAtPercentile ns 99) 1).

(** Lines 110-113: [requestsCompleted / 10]. *)
Definition rps_of (requestsCompleted : option Z) : rps_t :=
  Rps requestsCompleted
      (match requestsCompleted with
       | Some n => Num (inject_Z n / 10)
       | None => NaN
       end).

(** Lines 133-143: the loop that fills [result.customStats]. *)
Fixpoint customStats_of (hm : list (string * loc))
    (acc : list (string * customStat_t)) : M (list (string * customStat_t)) :=
  match hm with
  | [] => ret acc
  | (name, l) :: hm' =>
      ns <- read Rhistos l ;;
      customStats_of hm' (obj_set acc name (customStat_of ns))
  end.

(** [now] is the reading of the clock, [new Date().toISOString()]. *)
Definition report (now : string) (this : loc) : M report_t :=
  c <- get_counters this ;;
  cnt <- read Rcounters c ;;
  cs <- get_customStats this ;;
  hm <- read Rhistmaps cs ;;
  match obj_get hm "engine.http.response_time" with
  | None => throw TypeError
  | Some l =>
      ns <- read Rhistos l ;;
      stats <- customStats_of hm [] ;;
      ret (Report now
                  (obj_get cnt "scenarios.created")
                  (scenarioCounts_of cnt)
                  (obj_get cnt "scenarios.completed")
                  (obj_get cnt "engine.http.responses_received")
                  (latency_of ns)
                  (rps_of (obj_get cnt "engine.http.responses_received"))
                  (errors_of cnt)
                  (codes_of cnt)
                  (obj_get cnt "matches")
                  stats
                  c
                  (obj_get cnt "scenarios.skipped"))
  end.

(** ** Sequences of calls *)

(** One call of a mutator of a snapshot, or of [free]. *)
Inductive mutation :=
| MCounter (name : string) (value : Z)
| MAddCustomStat (name : string) (n : N)
| MFree.

Definition mutate (this : loc) (m : mutation) : M loc :=
  match m with
  | MCounter name value => counter this name value
  | MAddCustomStat name n => addCustomStat this name n
  | MFree => free this
  end.

Fixpoint mutate_all (this : loc) (ms : list mutation) : M unit :=
  match ms with
  | [] => ret tt
  | m :: ms' => mutate this m ;; mutate_all this ms'
  end.

(** ** Reading a snapshot off the store *)

(** The contents of a snapshot: its counters and the state of each of
    its histograms. *)
Record snapshot := Snapshot {
  snap_counters : list (string * Z);
  snap_histos : list (string * histogram)
}.

Definition histos_at (s : heap) (hm : list (string * loc))
  : option (list (string * histogram)) :=
  mapM (fun entry => h ← histos s !! entry.2; Some (entry.1, h)) hm.

Definition view (s : heap) (this : loc) : option snapshot :=
  o ← stats_objs s !! this;
  cs ← _customStats o;
  hm ← histo_maps s !! cs;
  hs ← histos_at s hm;
  match _counters o with
  | FObj c => cnt ← counter_objs s !! c; Some (Snapshot cnt hs)
  | FVal _ => None
  end.

(** ** Notions the properties are stated with *)

(** The location of a snapshot's counters object. *)
Definition counters_loc (s : heap) (this : loc) : option loc :=
  o ← stats_objs s !! this;
  match _counters o with
  | FObj c => Some c
  | FVal _ => None
  end.





(** The keys of every dictionary are distinct. *)
Definition well_formed (v : snapshot) : Prop :=
  NoDup (snap_counters v).*1 /\ NoDup (snap_histos v).*1.


(** The snapshot's cache of encoded histograms, if it has one, exists. *)
Definition cache_ok (s : heap) (this : loc) : Prop :=
  forall o e,
    stats_objs s !! this = Some o -> _encodedHistograms o = Some e ->
    is_Some (encoded_maps s !! e).


End model.

Arguments rget {_ T} r.
Arguments rset {_ T} r.

Notation "x <- c1 ;; c2" := (bind c1 (fun x => c2))
  (at level 100, c1 at next level, right associativity).
Notation "c1 ;; c2" := (bind c1 (fun _ => c2))
  (at level 100, right associativity).

(** ** Reference implementations of the two libraries

    They show that the interfaces can be met and give the examples
    something to run on.  The reference histogram keeps every sample; the
    reference [JSON] writes a value as the binary digits of its code. *)

Module Reference.

(** A positive number as a string of binary digits, least significant
    first, closed by a full stop. *)
Fixpoint print_pos (p : positive) : string :=
  match p with
  | xH => "."
  | xO p' => String "0" (print_pos p')
  | xI p' => String "1" (print_pos p')
  end.

(** Reading a sequence of such numbers.  [k] rebuilds the number being
    read from its remaining digits; [fresh] tells that no digit of the
    next number has been read yet. *)
Fixpoint parse_pos_list (s : string) (k : positive -> positive) (fresh : bool)
  : option (list positive) :=
  match s with
  | EmptyString => if fresh then Some [] else None
  | String c s' =>
      if Ascii.eqb c "." then cons (k xH) <$> parse_pos_list s' (fun p => p) true
      else if Ascii.eqb c "0" then parse_pos_list s' (fun p => k (xO p)) false
      else if Ascii.eqb c "1" then parse_pos_list s' (fun p => k (xI p)) false
      else None
  end.

Fixpoint print_pos_list (l : list positive) : string :=
  match l with
  | [] => ""
  | p :: l' => print_pos p ++ print_pos_list l'
  end.

(** *** Histograms as lists of samples *)

Definition encode_samples (h : list N) : string :=
  print_pos_list (map N.succ_pos h).

Definition decode_samples (s : string) : option (list N) :=
  map Pos.pred_N <$> parse_pos_list s (fun p => p) true.

Definition min_nonzero (h : list N) : Q :=
  inject_Z (Z.of_N (foldr (fun x acc => if N.eqb x 0 then acc else N.min x acc)
                          9007199254740991%N h)).

Definition max_sample (h : list N) : Q :=
  inject_Z (Z.of_N (foldr N.max 0%N h)).

(** The smallest sample that at least [p] percent of the samples do
    not exceed. *)
Definition percentile (h : list N) (p : Q) : Q :=
  let sorted := merge_sort N.le h in
  let rank := Z.to_nat (Qceiling (p * inject_Z (Z.of_nat (length h)) / 100)) in
  inject_Z (Z.of_N (nth (rank - 1) sorted 0%N)).

(** *** JSON values as numbers *)

Fixpoint json_to_tree (j : json) : gen_tree (bool + Z + string) :=
  match j with
  | JNull => GenNode 0 []
  | JBool b => GenLeaf (inl (inl b))
  | JNum z => GenLeaf (inl (inr z))
  | JStr s => GenLeaf (inr s)
  | JArr l => GenNode 1 (map json_to_tree l)
  | JObj kvs =>
      GenNode 2 (map (fun kv => let '(k, v) := kv in
                                GenNode 3 [GenLeaf (inr k); json_to_tree v]) kvs)
  end.

Fixpoint tree_to_json (t : gen_tree (bool + Z + string)) : json :=
  match t with
  | GenLeaf (inl (inl b)) => JBool b
  | GenLeaf (inl (inr z)) => JNum z
  | GenLeaf (inr s) => JStr s
  | GenNode 1 ts => JArr (map tree_to_json ts)
  | GenNode 2 ts =>
      JObj (map (fun t' => match t' with
                           | GenNode 3 [GenLeaf (inr k); v] => (k, tree_to_json v)
                           | _ => ("", JNull)
                           end) ts)
  | GenNode _ _ => JNull
  end.

Definition stringify (j : json) : string :=
  print_pos (encode (json_to_tree j)).

Definition parse (s : string) : option json :=
  match parse_pos_list s (fun p => p) true with
  | Some [p] => tree_to_json <$> decode p
  | _ => None
  end.

End Reference.

(** * Properties *)

(** ** Rounding *)





(** ** Dictionaries *)

Section dictionary_facts.
Context {V : Type}.
Implicit Types (o : list (string * V)) (k : string) (v : V).

Lemma obj_get_set_eq o k v : obj_get (obj_set o k v) k = Some v.
Proof.
  induction o as [|[k' v'] o IH]; simpl.
  - by rewrite String.eqb_refl.
  - destruct (String.eqb k' k) eqn:E; simpl.
    + by rewrite String.eqb_refl.
    + by rewrite E.
Qed.

Lemma obj_get_set_ne o k k' v :
  k ≠ k' -> obj_get (obj_set o k v) k' = obj_get o k'.
Proof.
  intros Hne. induction o as [|[k0 v0] o IH]; simpl.
  - apply String.eqb_neq in Hne. rewrite Hne. reflexivity.
  - destruct (String.eqb k0 k) eqn:E; simpl.
    + apply String.eqb_eq in E as ->.
      apply String.eqb_neq in Hne. by rewrite Hne.
    + by rewrite IH.
Qed.

Lemma obj_get_set o k k' v :
  obj_get (obj_set o k v) k' = if decide (k = k') then Some v else obj_get o k'.
Proof.
  case_decide as E.
  - subst. apply obj_get_set_eq.
  - by apply obj_get_set_ne.
Qed.

Lemma obj_get_None o k : obj_get o k = None <-> k ∉ o.*1.
Proof.
  induction o as [|[k' v'] o IH]; simpl.
  - split; [intros _; apply not_elem_of_nil | done].
  - rewrite not_elem_of_cons. destruct (String.eqb k' k) eqn:E.
    + apply String.eqb_eq in E as ->. split; [done | by intros []].
    + apply String.eqb_neq in E. rewrite IH.
      split; [intros Hn; split; [congruence | done] | by intros [_ Hn]].
Qed.

Lemma obj_get_Some_key o k v : obj_get o k = Some v -> k ∈ o.*1.
Proof.
  intros Hget. destruct (decide (k ∈ o.*1)) as [|Hn]; [done |].
  apply obj_get_None in Hn. congruence.
Qed.

Lemma obj_has_true o k : obj_has o k = true <-> k ∈ o.*1.
Proof.
  unfold obj_has. destruct (obj_get o k) eqn:E.
  - split; [intros _; by eapply obj_get_Some_key | done].
  - split; [done | intros Hin]. by apply obj_get_None in E.
Qed.

Lemma obj_set_keys o k v :
  (obj_set o k v).*1 = if obj_has o k then o.*1 else (o.*1 ++ [k])%list.
Proof.
  unfold obj_has. induction o as [|[k' v'] o IH]; [done |].
  cbn [obj_set obj_get]. destruct (String.eqb k' k) eqn:E.
  - apply String.eqb_eq in E as ->. done.
  - rewrite !fmap_cons, IH. by destruct (obj_get o k).
Qed.

Lemma obj_set_NoDup o k v : NoDup o.*1 -> NoDup (obj_set o k v).*1.
Proof.
  intros Hnd. rewrite obj_set_keys. destruct (obj_has o k) eqn:E; [done |].
  apply NoDup_app. split_and!; [done | | apply NoDup_singleton].
  intros x Hx ->%list_elem_of_singleton.
  apply obj_has_true in Hx. congruence.
Qed.

Lemma obj_get_head o k v : obj_get ((k, v) :: o) k = Some v.
Proof. simpl. by rewrite String.eqb_refl. Qed.
End dictionary_facts.

Section dictionary_updates.
Context {V : Type}.
Implicit Types (o : list (string * V)) (k : string) (v : V).

Lemma obj_set_set o k v v' : obj_set (obj_set o k v) k v' = obj_set o k v'.
Proof.
  induction o as [|[k' v0] o IH]; simpl.
  - by rewrite String.eqb_refl.
  - destruct (String.eqb k' k) eqn:E; simpl.
    + by rewrite String.eqb_refl.
    + by rewrite E, IH.
Qed.

Lemma obj_set_absent o k v : k ∉ o.*1 -> obj_set o k v = (o ++ [(k, v)])%list.
Proof.
  induction o as [|[k' v0] o IH]; simpl; [done |].
  rewrite not_elem_of_cons. intros [Hne Hnin].
  apply not_eq_sym, String.eqb_neq in Hne. rewrite Hne. by rewrite IH.
Qed.
End dictionary_updates.

(** ** Running operations on the store *)

Section heap_facts.
Context `{HdrHistogram} `{JSON}.

Lemma bind_Ret {A B} (c : M A) (k : A -> M B) s a s' :
  c s = Some (Ret a, s') -> bind c k s = k a s'.
Proof. unfold bind. by intros ->. Qed.

Lemma bind_Throw {A B} (c : M A) (k : A -> M B) s e s' :
  c s = Some (Throw e, s') -> bind c k s = Some (Throw e, s').
Proof. unfold bind. by intros ->. Qed.

Lemma new_run {T} (r : region T) x s :
  new r x s = Some (Ret (length (rget r s)), rset r (rget r s ++ [x])%list s).
Proof. done. Qed.

Lemma ret_run {A} (a : A) s : ret a s = Some (Ret a, s).
Proof. done. Qed.

Lemma lift_run {A} (o : outcome A) s : lift o s = Some (o, s).
Proof. done. Qed.

Lemma read_run {T} (r : region T) l s x :
  rget r s !! l = Some x -> read r l s = Some (Ret x, s).
Proof. unfold read. by intros ->. Qed.

Lemma write_run {T} (r : region T) l x s y :
  rget r s !! l = Some y ->
  write r l x s = Some (Ret tt, rset r (<[l := x]> (rget r s)) s).
Proof. unfold write. by intros ->. Qed.

Lemma get_counters_run s this o c :
  stats_objs s !! this = Some o -> _counters o = FObj c ->
  get_counters this s = Some (Ret c, s).
Proof.
  intros Ho Hc. unfold get_counters.
  rewrite (bind_Ret _ _ _ _ _ (read_run Rstats _ _ _ Ho)). by rewrite Hc.
Qed.

Lemma get_customStats_run s this o cs :
  stats_objs s !! this = Some o -> _customStats o = Some cs ->
  get_customStats this s = Some (Ret cs, s).
Proof.
  intros Ho Hc. unfold get_customStats.
  rewrite (bind_Ret _ _ _ _ _ (read_run Rstats _ _ _ Ho)). by rewrite Hc.
Qed.

(** What [counter] does to the counters object. *)
Definition counter_upd (m : list (string * Z)) (name : string) (value : Z) :=
  obj_set m name (default 0%Z (obj_get m name) + value)%Z.

Lemma counter_run s this o c m name value :
  stats_objs s !! this = Some o -> _counters o = FObj c ->
  counter_objs s !! c = Some m ->
  counter this name value s =
    Some (Ret this, rset Rcounters (<[c := counter_upd m name value]> (counter_objs s)) s).
Proof.
  intros Ho Hc Hm. pose proof (lookup_lt_Some _ _ _ Hm) as Hlt.
  unfold counter, counter_upd.
  rewrite (bind_Ret _ _ _ _ _ (get_counters_run _ _ _ _ Ho Hc)).
  rewrite (bind_Ret _ _ _ _ _ (read_run Rcounters _ _ _ Hm)).
  destruct (falsy (obj_get m name)) eqn:Hf.
  - assert (default 0%Z (obj_get m name) = 0%Z) as ->.
    { destruct (obj_get m name) as [v|]; [|done]. by apply Z.eqb_eq in Hf as ->. }
    rewrite (bind_Ret _ _ _ _ _ (write_run Rcounters _ _ _ _ Hm)).
    erewrite bind_Ret by (apply read_run; cbn; by apply list_lookup_insert_eq).
    rewrite obj_get_set_eq.
    erewrite bind_Ret by (eapply write_run; cbn; by apply list_lookup_insert_eq).
    unfold ret. cbn. by rewrite list_insert_insert_eq, obj_set_set.
  - destruct (obj_get m name) as [v|] eqn:Hv; [|done]. cbn [default].
    rewrite (bind_Ret _ _ _ _ _ (ret_run tt s)).
    rewrite (bind_Ret _ _ _ _ _ (read_run Rcounters _ _ _ Hm)).
    rewrite Hv.
    by rewrite (bind_Ret _ _ _ _ _ (write_run Rcounters _ _ _ _ Hm)).
Qed.
End heap_facts.

Tactic Notation "step_with" uconstr(H) := rewrite (bind_Ret _ _ _ _ _ H).
Tactic Notation "step_by" tactic(tac) := erewrite bind_Ret by tac.

(** ** Snapshots and reports *)

Section views.
Context `{HdrHistogram} `{JSON}.

Lemma histos_at_Forall2 s hm hs :
  histos_at s hm = Some hs <->
  Forall2 (fun e x => e.1 = x.1 /\ histos s !! e.2 = Some x.2) hm hs.
Proof.
  unfold histos_at. rewrite mapM_Some.
  split; intros Hall; (eapply Forall2_impl; [exact Hall |]);
    intros [n l] [n' h]; simpl; destruct (histos s !! l) as [h0|]; simpl.
  - intros [= -> ->]. done.
  - done.
  - intros [-> [= ->]]. done.
  - intros [_ ?]. done.
Qed.

Lemma histos_at_nil s : histos_at s [] = Some [].
Proof. done. Qed.

Lemma histos_at_cons s n l hm h hs :
  histos s !! l = Some h -> histos_at s hm = Some hs ->
  histos_at s ((n, l) :: hm) = Some ((n, h) :: hs).
Proof.
  rewrite !histos_at_Forall2. intros Hl Hhm. by constructor.
Qed.

Lemma histos_at_cons_inv s n l hm hs :
  histos_at s ((n, l) :: hm) = Some hs ->
  exists h hs', hs = (n, h) :: hs' /\ histos s !! l = Some h
                /\ histos_at s hm = Some hs'.
Proof.
  rewrite histos_at_Forall2. intros Hall.
  apply Forall2_cons_inv_l in Hall as ([n' h] & hs' & [Hn Hl] & Hrest & ->).
  simpl in *. subst n'. exists h, hs'. by rewrite histos_at_Forall2.
Qed.

Lemma histos_at_keys s hm hs : histos_at s hm = Some hs -> hs.*1 = hm.*1.
Proof.
  rewrite histos_at_Forall2. induction 1 as [|e x hm hs [He _] _ IH]; [done |].
  rewrite !fmap_cons. by rewrite IH, He.
Qed.

Lemma histos_at_get s hm hs name :
  histos_at s hm = Some hs ->
  match obj_get hm name with
  | Some l => exists h, histos s !! l = Some h /\ obj_get hs name = Some h
  | None => obj_get hs name = None
  end.
Proof.
  rewrite histos_at_Forall2.
  induction 1 as [|[n l] [n' h] hm hs [He Hl] _ IH]; simpl in *; [done |].
  subst n'. destruct (String.eqb n name); [by exists h | done].
Qed.

Lemma view_Some s this v :
  view s this = Some v <->
  exists o cs cc hm,
    stats_objs s !! this = Some o /\ _customStats o = Some cs
    /\ _counters o = FObj cc /\ histo_maps s !! cs = Some hm
    /\ histos_at s hm = Some (snap_histos v)
    /\ counter_objs s !! cc = Some (snap_counters v).
Proof.
  unfold view. split.
  - intros Hv. destruct (stats_objs s !! this) as [o|]; [|done]. simpl in Hv.
    destruct (_customStats o) as [cs|] eqn:Hcs; [|done]. simpl in Hv.
    destruct (histo_maps s !! cs) as [hm|] eqn:Hhm; [|done]. simpl in Hv.
    destruct (histos_at s hm) as [hs|] eqn:Hhs; [|done]. simpl in Hv.
    destruct (_counters o) as [cc|] eqn:Hcc; [|done].
    destruct (counter_objs s !! cc) as [cnt|] eqn:Hcnt; [|done].
    simpl in Hv. injection Hv as <-. by exists o, cs, cc, hm.
  - intros (o & cs & cc & hm & -> & Hcs & Hcc & Hhm & Hhs & Hcnt). simpl.
    rewrite Hcs. simpl. rewrite Hhm. simpl. rewrite Hhs. simpl.
    rewrite Hcc, Hcnt. simpl. by destruct v.
Qed.

(** *** [report] as a function of the snapshot's contents *)

Definition customStats_view (hs : list (string * histogram))
    (acc : list (string * customStat_t)) : list (string * customStat_t) :=
  fold_left (fun acc e => obj_set acc e.1 (customStat_of e.2)) hs acc.

Definition report_of (now : string) (c : loc) (v : snapshot) : outcome report_t :=
  let cnt := snap_counters v in
  match obj_get (snap_histos v) "engine.http.response_time" with
  | None => Throw TypeError
  | Some ns =>
      Ret (Report now
                  (obj_get cnt "scenarios.created")
                  (scenarioCounts_of cnt)
                  (obj_get cnt "scenarios.completed")
                  (obj_get cnt "engine.http.responses_received")
                  (latency_of ns)
                  (rps_of (obj_get cnt "engine.http.responses_received"))
                  (errors_of cnt)
                  (codes_of cnt)
                  (obj_get cnt "matches")
                  (customStats_view (snap_histos v) [])
                  c
                  (obj_get cnt "scenarios.skipped"))
  end.

Lemma customStats_of_run s hm hs acc :
  histos_at s hm = Some hs ->
  customStats_of hm acc s = Some (Ret (customStats_view hs acc), s).
Proof.
  revert hs acc. induction hm as [|[n l] hm IH]; intros hs acc Hhs.
  - injection Hhs as <-. done.
  - apply histos_at_cons_inv in Hhs as (h & hs' & -> & Hl & Hhs').
    cbn [customStats_of].
    step_with (read_run Rhistos _ _ _ Hl). by rewrite (IH _ _ Hhs').
Qed.

Lemma report_run now s this o c v :
  view s this = Some v ->
  stats_objs s !! this = Some o -> _counters o = FObj c ->
  report now this s = Some (report_of now c v, s).
Proof.
  intros (o' & cs & cc & hm & Ho' & Hcs & Hcc & Hhm & Hhs & Hcnt)%view_Some Ho Hc.
  assert (o' = o) as -> by congruence. assert (cc = c) as -> by congruence.
  unfold report, report_of.
  step_with (get_counters_run _ _ _ _ Ho Hc).
  step_with (read_run Rcounters _ _ _ Hcnt).
  step_with (get_customStats_run _ _ _ _ Ho Hcs).
  step_with (read_run Rhistmaps _ _ _ Hhm).
  pose proof (histos_at_get _ _ _ "engine.http.response_time" Hhs) as Hget.
  destruct (obj_get hm "engine.http.response_time") as [l|].
  - destruct Hget as (ns & Hl & ->).
    step_with (read_run Rhistos _ _ _ Hl).
    by step_with (customStats_of_run _ _ _ [] Hhs).
  - by rewrite Hget.
Qed.

Lemma view_counters_loc s this v :
  view s this = Some v -> exists c, counters_loc s this = Some c.
Proof.
  intros (o & cs & cc & hm & Ho & _ & Hcc & _)%view_Some.
  exists cc. unfold counters_loc. rewrite Ho. simpl. by rewrite Hcc.
Qed.

Lemma report_view now s this v c :
  view s this = Some v -> counters_loc s this = Some c ->
  report now this s = Some (report_of now c v, s).
Proof.
  intros Hv Hc. unfold counters_loc in Hc.
  destruct (stats_objs s !! this) as [o|] eqn:Ho; [|done]. simpl in Hc.
  destruct (_counters o) as [c'|] eqn:Hc'; [|done]. injection Hc as ->.
  by eapply report_run.
Qed.
End views.

(** ** The reference implementations meet the interfaces *)

Lemma parse_print_pos (p : positive) (k : positive -> positive) (fresh : bool)
    (rest : string) :
  Reference.parse_pos_list (Reference.print_pos p ++ rest) k fresh
  = cons (k p) <$> Reference.parse_pos_list rest (fun q => q) true.
Proof.
  revert k fresh. induction p as [p IH|p IH|]; intros k fresh; simpl.
  - by rewrite IH.
  - by rewrite IH.
  - done.
Qed.

Lemma parse_print_pos_list (l : list positive) :
  Reference.parse_pos_list (Reference.print_pos_list l) (fun q => q) true = Some l.
Proof.
  induction l as [|p l IH]; simpl; [done |].
  by rewrite parse_print_pos, IH.
Qed.

Lemma decode_encode_samples (h : list N) :
  Reference.decode_samples (Reference.encode_samples h) = Some h.
Proof.
  unfold Reference.decode_samples, Reference.encode_samples.
  rewrite parse_print_pos_list. simpl. f_equal.
  rewrite <- list_fmap_compose. rewrite <- (list_fmap_id h) at 2.
  apply list_fmap_ext. intros _ n _. simpl. apply N.pos_pred_succ.
Qed.

Lemma min_nonzero_Permutation (a b : list N) :
  a ≡ₚ b -> Reference.min_nonzero a = Reference.min_nonzero b.
Proof.
  unfold Reference.min_nonzero. intros Hab. do 2 f_equal.
  induction Hab as [|x a b _ IH|x y a|a b c _ IH1 _ IH2]; simpl.
  - done.
  - by rewrite IH.
  - destruct (N.eqb x 0), (N.eqb y 0); try done. lia.
  - congruence.
Qed.

Lemma max_sample_Permutation (a b : list N) :
  a ≡ₚ b -> Reference.max_sample a = Reference.max_sample b.
Proof.
  unfold Reference.max_sample. intros Hab. do 2 f_equal.
  induction Hab as [|x a b _ IH|x y a|a b c _ IH1 _ IH2]; simpl.
  - done.
  - by rewrite IH.
  - lia.
  - congruence.
Qed.

Lemma merge_sort_Permutation_eq (a b : list N) :
  a ≡ₚ b -> merge_sort N.le a = merge_sort N.le b.
Proof.
  intros Hab. apply (Sorted_unique N.le).
  - apply Sorted_merge_sort; apply _.
  - apply Sorted_merge_sort; apply _.
  - by rewrite !merge_sort_Permutation.
Qed.

Lemma percentile_Permutation (a b : list N) (p : Q) :
  a ≡ₚ b -> Reference.percentile a p = Reference.percentile b p.
Proof.
  intros Hab. unfold Reference.percentile.
  by rewrite (merge_sort_Permutation_eq a b Hab), (Permutation_length Hab).
Qed.

Fixpoint tree_to_json_to_tree (j : json) :
  Reference.tree_to_json (Reference.json_to_tree j) = j.
Proof.
  destruct j as [|b|z|s|l|kvs]; simpl; try done.
  - f_equal. induction l as [|x l IH]; simpl; [done |].
    by rewrite tree_to_json_to_tree, IH.
  - f_equal. induction kvs as [|[k v] kvs IH]; simpl; [done |].
    by rewrite tree_to_json_to_tree, IH.
Qed.

Lemma append_empty_r (s : string) : s ++ "" = s.
Proof.
  induction s as [|c s IH]; [done |].
  change (String c (s ++ "") = String c s). by f_equal.
Qed.

Lemma parse_stringify (j : json) :
  Reference.parse (Reference.stringify j) = Some j.
Proof.
  unfold Reference.parse, Reference.stringify.
  rewrite <- (append_empty_r (Reference.print_pos _)).
  rewrite parse_print_pos. simpl.
  by rewrite decode_encode; simpl; rewrite tree_to_json_to_tree.
Qed.

(** The reference histogram: the samples in the order of recording. *)
Definition reference_histogram : HdrHistogram := {|
  histogram := list N;
  build := [];
  recordValue h n := (h ++ [n])%list;
  add a b := (a ++ b)%list;
  minNonZeroValue := Reference.min_nonzero;
  maxValue := Reference.max_sample;
  getValueAtPercentile := Reference.percentile;
  encodeIntoBase64String := Reference.encode_samples;
  decodeFromCompressedBase64 := Reference.decode_samples;
  same_samples := Permutation;
  same_samples_equiv := _;
  add_proper := fun a a' b b' Ha Hb => Permutation_app Ha Hb;
  add_comm := fun a b => Permutation_app_comm a b;
  add_assoc := fun a b c =>
    eq_ind_r (fun l => l ≡ₚ (a ++ (b ++ c))%list) (reflexivity _)
             (eq_sym (app_assoc a b c));
  minNonZeroValue_proper := min_nonzero_Permutation;
  maxValue_proper := max_sample_Permutation;
  getValueAtPercentile_proper := fun a b p Hab => percentile_Permutation a b p Hab;
  decode_after_encode := fun h =>
    ex_intro _ h (conj (decode_encode_samples h) (reflexivity h))
|}.

Definition reference_JSON : JSON := {|
  JSON_stringify := Reference.stringify;
  JSON_parse := Reference.parse;
  JSON_parse_stringify := parse_stringify
|}.

(** ** [serialize] *)

Ltac hsimpl :=
  cbn [rget rset Rstats Rcounters Rhistmaps Rencoded Rhistos
       stats_objs counter_objs histo_maps encoded_maps histos
       _customStats _counters _encodedHistograms].

Section serialize_facts.
Context `{HdrHistogram} `{JSON}.

Lemma histos_at_ext s s' hm :
  histos s = histos s' -> histos_at s hm = histos_at s' hm.
Proof. unfold histos_at. by intros ->. Qed.

(** The dictionary of encoded histograms that the loop of [serialize]
    builds from the histograms [hs]. *)
Definition encoded_view (hs : list (string * histogram))
    (acc : list (string * string)) : list (string * string) :=
  fold_left (fun em e => obj_set em e.1 (encodeIntoBase64String e.2)) hs acc.

Lemma serialize_loop s e em hm hs :
  histos_at s hm = Some hs ->
  encoded_maps s !! e = Some em ->
  each hm (fun entry =>
    histo <- read Rhistos entry.2 ;;
    em <- read Rencoded e ;;
    write Rencoded e (obj_set em entry.1 (encodeIntoBase64String histo))) s
  = Some (Ret tt, rset Rencoded (<[e := encoded_view hs em]> (encoded_maps s)) s).
Proof.
  revert s em hs. induction hm as [|[n l] hm IH]; intros s em hs Hhs Hem.
  - injection Hhs as <-. cbn. unfold ret. rewrite list_insert_id by done.
    by destruct s.
  - apply histos_at_cons_inv in Hhs as (h & hs' & -> & Hl & Hhs').
    cbn [each].
    erewrite bind_Ret; cycle 1.
    { step_with (read_run Rhistos _ _ _ Hl).
      step_with (read_run Rencoded _ _ _ Hem).
      by apply (write_run Rencoded _ _ _ _ Hem). }
    erewrite IH; cycle 1.
    + by erewrite histos_at_ext.
    + hsimpl. apply list_lookup_insert_eq. by eapply lookup_lt_Some.
    + hsimpl. by rewrite list_insert_insert_eq.
Qed.

Lemma serialize_run s this v :
  view s this = Some v ->
  exists o cs cc,
    stats_objs s !! this = Some o /\ _customStats o = Some cs
    /\ _counters o = FObj cc
    /\ serialize this s =
       Some (Ret (JSON_stringify
                    (payload (Some (json_of_counters (snap_counters v)))
                             (json_of_encoded (encoded_view (snap_histos v) [])))),
             Heap (<[this := StatsObj (Some cs) (FObj cc)
                                      (Some (length (encoded_maps s)))]>
                     (stats_objs s))
                  (counter_objs s) (histo_maps s)
                  (encoded_maps s ++ [encoded_view (snap_histos v) []])
                  (histos s)).
Proof.
  intros (o & cs & cc & hm & Ho & Hcs & Hcc & Hhm & Hhs & Hcnt)%view_Some.
  exists o, cs, cc. split_and!; try done.
  pose proof (lookup_lt_Some _ _ _ Ho) as Hlt.
  unfold serialize.
  step_with (new_run Rencoded [] s).
  unfold set_encodedHistograms.
  erewrite bind_Ret; cycle 1.
  { step_by (apply read_run; hsimpl; exact Ho).
    eapply write_run. hsimpl. exact Ho. }
  hsimpl. rewrite Hcs, Hcc.
  erewrite bind_Ret; cycle 1.
  { eapply get_customStats_run; hsimpl; [by apply list_lookup_insert_eq | done]. }
  step_by (apply read_run; hsimpl; exact Hhm).
  erewrite bind_Ret; cycle 1.
  { apply serialize_loop with (hs := snap_histos v) (em := []).
    - by erewrite histos_at_ext.
    - hsimpl. by rewrite lookup_app_r, Nat.sub_diag. }
  hsimpl.
  step_by (apply read_run; hsimpl; by apply list_lookup_insert_eq).
  hsimpl.
  erewrite bind_Ret; cycle 1.
  { step_by (apply read_run; hsimpl; exact Hcnt). apply ret_run. }
  erewrite bind_Ret; cycle 1.
  { apply read_run. hsimpl. rewrite list_lookup_insert_eq; [done |].
    rewrite length_app. simpl. lia. }
  unfold ret. do 3 f_equal.
  rewrite <- (Nat.add_0_r (length (encoded_maps s))) at 1.
  by rewrite insert_app_r.
Qed.
End serialize_facts.

(** ** [deserialize] *)

Section dictionary_folds.
Context {V : Type}.

(** Setting fresh, distinct keys one after the other appends them. *)
Lemma fold_obj_set_fresh (kvs m : list (string * V)) :
  NoDup (m.*1 ++ kvs.*1) ->
  fold_left (fun m e => obj_set m e.1 e.2) kvs m = (m ++ kvs)%list.
Proof.
  revert m. induction kvs as [|[k v] kvs IH]; intros m Hnd; simpl.
  - by rewrite app_nil_r.
  - rewrite fmap_cons in Hnd. simpl in Hnd.
    rewrite obj_set_absent.
    + rewrite IH.
      * by rewrite <- app_assoc.
      * rewrite fmap_app. simpl. by rewrite <- app_assoc.
    + apply NoDup_app in Hnd as (_ & Hdisj & _).
      intros Hin. apply (Hdisj _ Hin). by left.
Qed.
End dictionary_folds.

Section deserialize_facts.
Context `{HdrHistogram} `{JSON}.

(** The body of the loop of [deserialize], for the accumulator [acc]. *)
Definition decode_entry (acc : loc) (entry : string * json) : M unit :=
  match decode_value entry.2 with
  | None => throw DecodeError
  | Some h =>
      l <- new Rhistos h ;;
      m <- read Rhistmaps acc ;;
      write Rhistmaps acc (obj_set m entry.1 l)
  end.






Lemma create_run s :
  create s
  = Some (Ret (length (stats_objs s)),
          Heap (stats_objs s ++ [StatsObj (Some (length (histo_maps s)))
                                          (FObj (length (counter_objs s))) None])
               (counter_objs s ++ [[]]) (histo_maps s ++ [[]])
               (encoded_maps s) (histos s)).
Proof.
  unfold create. step_with (new_run Rstats (StatsObj None (FVal None) None) s).
  unfold reset. hsimpl.
  erewrite bind_Ret by apply new_run. hsimpl.
  unfold set_customStats.
  erewrite bind_Ret; cycle 1.
  { step_by (apply read_run; hsimpl; apply list_lookup_middle; done).
    eapply write_run. hsimpl. by apply list_lookup_middle. }
  hsimpl. erewrite bind_Ret by apply new_run. hsimpl.
  unfold set_counters.
  erewrite bind_Ret; cycle 1.
  { step_by (apply read_run; hsimpl; apply list_lookup_insert_eq;
             rewrite length_app; simpl; lia).
    eapply write_run. hsimpl. apply list_lookup_insert_eq.
    rewrite length_app. simpl. lia. }
  unfold ret. hsimpl. do 3 f_equal.
  rewrite list_insert_insert_eq.
  rewrite <- (Nat.add_0_r (length (stats_objs s))) at 1.
  by rewrite insert_app_r.
Qed.
End deserialize_facts.

Section deserialize_runs.
Context `{HdrHistogram} `{JSON}.

(** What [deserialize] does after its loop. *)
Definition deserialize_tail (o : json) (acc : loc) : M loc :=
  result <- create ;;
  c <- lift (json_prop o "counters") ;;
  f <- match c ≫= counters_of_json with
       | Some m => l <- new Rcounters m ;; ret (FObj l)
       | None => ret (FVal c)
       end ;;
  set_counters result f ;;
  set_customStats result acc ;;
  ret result.

(** The store after [deserialize_tail]. *)
Definition tail_heap (s : heap) (acc : loc) (c : option json) : heap :=
  match c ≫= counters_of_json with
  | Some m =>
      Heap (stats_objs s ++ [StatsObj (Some acc)
                                      (FObj (S (length (counter_objs s)))) None])
           (counter_objs s ++ [[]; m]) (histo_maps s ++ [[]])
           (encoded_maps s) (histos s)
  | None =>
      Heap (stats_objs s ++ [StatsObj (Some acc) (FVal c) None])
           (counter_objs s ++ [[]]) (histo_maps s ++ [[]])
           (encoded_maps s) (histos s)
  end.

Lemma deserialize_tail_run s o acc c :
  json_prop o "counters" = Ret c ->
  deserialize_tail o acc s
  = Some (Ret (length (stats_objs s)), tail_heap s acc c).
Proof.
  intros Hc. unfold deserialize_tail, tail_heap.
  step_with (create_run s). rewrite Hc.
  step_by (apply lift_run).
  assert (forall (f : field) (co : list (list (string * Z))),
    (set_counters (length (stats_objs s)) f ;;
     set_customStats (length (stats_objs s)) acc ;;
     ret (length (stats_objs s)))
      (Heap (stats_objs s ++ [StatsObj (Some (length (histo_maps s)))
                                       (FObj (length (counter_objs s))) None])
            co (histo_maps s ++ [[]]) (encoded_maps s) (histos s))
    = Some (Ret (length (stats_objs s)),
            Heap (stats_objs s ++ [StatsObj (Some acc) f None])
                 co (histo_maps s ++ [[]]) (encoded_maps s) (histos s)))
    as Hfinish.
  { intros f co. unfold set_counters, set_customStats.
    erewrite bind_Ret; cycle 1.
    { step_by (apply read_run; hsimpl; apply list_lookup_middle; done).
      eapply write_run. hsimpl. by apply list_lookup_middle. }
    hsimpl.
    erewrite bind_Ret; cycle 1.
    { step_by (apply read_run; hsimpl; apply list_lookup_insert_eq;
               rewrite length_app; simpl; lia).
      eapply write_run. hsimpl. apply list_lookup_insert_eq.
      rewrite length_app. simpl. lia. }
    unfold ret. hsimpl. do 3 f_equal.
    rewrite list_insert_insert_eq.
    rewrite <- (Nat.add_0_r (length (stats_objs s))) at 1.
    by rewrite insert_app_r. }
  destruct (c ≫= counters_of_json) as [m|].
  - erewrite bind_Ret; cycle 1.
    { step_by (apply new_run). apply ret_run. }
    hsimpl. rewrite length_app, Nat.add_1_r, <- app_assoc. apply Hfinish.
  - step_with (ret_run (FVal c)
      (Heap (stats_objs s ++ [StatsObj (Some (length (histo_maps s)))
                                       (FObj (length (counter_objs s))) None])
            (counter_objs s ++ [[]]) (histo_maps s ++ [[]])
            (encoded_maps s) (histos s))).
    apply Hfinish.
Qed.

Lemma deserialize_unfold serialized s :
  deserialize serialized s =
  match JSON_parse serialized with
  | None => throw SyntaxError s
  | Some o =>
      (eh <- lift (json_prop o "encodedHistograms") ;;
       acc <- new Rhistmaps [] ;;
       each (L_collection eh) (decode_entry acc) ;;
       deserialize_tail o acc) s
  end.
Proof. unfold deserialize. by destruct (JSON_parse serialized). Qed.

Lemma json_prop_not_null o k v k' :
  json_prop o k = Ret v -> exists v', json_prop o k' = Ret v'.
Proof. destruct o; simpl; try done; eauto. Qed.


End deserialize_runs.

(** ** The round trip through [serialize] and [deserialize] *)

Section round_trip.
Context `{HdrHistogram} `{JSON}.







Lemma encoded_view_map hs acc :
  encoded_view hs acc
  = fold_left (fun m e => obj_set m e.1 e.2)
              (map (fun e => (e.1, encodeIntoBase64String e.2)) hs) acc.
Proof.
  unfold encoded_view. revert acc.
  induction hs as [|e hs IH]; intros acc; simpl; [done | by rewrite IH].
Qed.

Lemma encoded_view_NoDup hs :
  NoDup hs.*1 ->
  encoded_view hs [] = map (fun e => (e.1, encodeIntoBase64String e.2)) hs.
Proof.
  intros Hnd. rewrite encoded_view_map, fold_obj_set_fresh; [done |].
  simpl. rewrite <- list_fmap_compose.
  by rewrite (list_fmap_ext _ fst hs) by done.
Qed.


End round_trip.

(** ** [combine]: what the loops do to the store *)

Lemma prefix_insert_ge {A} (l0 l : list A) (i : nat) (x : A) :
  l0 `prefix_of` l -> length l0 <= i -> l0 `prefix_of` <[i := x]> l.
Proof.
  intros [k ->] Hi. rewrite insert_app_r_alt by done. by apply prefix_app_r.
Qed.

Section combine_loops.
Context `{HdrHistogram} `{JSON}.

(** The store [s] keeps every object of [s0] as it was. *)
Record extends (s0 s : heap) : Prop := Extends {
  ext_stats : stats_objs s0 `prefix_of` stats_objs s;
  ext_counters : counter_objs s0 `prefix_of` counter_objs s;
  ext_histo_maps : histo_maps s0 `prefix_of` histo_maps s;
  ext_encoded : encoded_maps s0 `prefix_of` encoded_maps s;
  ext_histos : histos s0 `prefix_of` histos s
}.

Lemma extends_refl s : extends s s.
Proof. by split. Qed.

Lemma histos_at_prefix s0 s hm hs :
  histos s0 `prefix_of` histos s ->
  histos_at s0 hm = Some hs -> histos_at s hm = Some hs.
Proof.
  intros Hpre. rewrite !histos_at_Forall2. intros Hall.
  eapply Forall2_impl; [exact Hall |].
  intros e x [He Hl]. split; [done |]. by eapply prefix_lookup_Some.
Qed.

Lemma view_extends s0 s this v :
  extends s0 s -> view s0 this = Some v -> view s this = Some v.
Proof.
  intros [Hst Hco Hhm _ Hhi].
  intros (o & cs & cc & hm & Ho & Hcs & Hcc & Hhm' & Hhs & Hcnt)%view_Some.
  apply view_Some. exists o, cs, cc, hm. split_and!; try done.
  - by eapply prefix_lookup_Some.
  - by eapply prefix_lookup_Some.
  - by eapply histos_at_prefix.
  - by eapply prefix_lookup_Some.
Qed.

Lemma counters_loc_extends s0 s this c :
  extends s0 s -> counters_loc s0 this = Some c -> counters_loc s this = Some c.
Proof.
  intros [Hst _ _ _ _]. unfold counters_loc.
  destruct (stats_objs s0 !! this) as [o|] eqn:Ho; [|done].
  assert (stats_objs s !! this = Some o) as ->
    by (by eapply prefix_lookup_Some).
  done.
Qed.

(** The result of [combine] while it is being filled: the object [r],
    allocated after [s0], holds the contents [w] in cells that are all
    younger than [s0], each histogram in a cell of its own. *)
Inductive result_state (s0 s : heap) (r : loc) (w : snapshot) : Prop :=
| ResultState (rc rs : loc) (rhm : list (string * loc)) :
    extends s0 s ->
    stats_objs s !! r = Some (StatsObj (Some rs) (FObj rc) None) ->
    length (stats_objs s0) <= r ->
    length (counter_objs s0) <= rc ->
    counter_objs s !! rc = Some (snap_counters w) ->
    length (histo_maps s0) <= rs ->
    histo_maps s !! rs = Some rhm ->
    histos_at s rhm = Some (snap_histos w) ->
    Forall (fun l => length (histos s0) <= l) rhm.*2 ->
    NoDup rhm.*2 ->
    result_state s0 s r w.

Lemma result_state_view s0 s r w : result_state s0 s r w -> view s r = Some w.
Proof.
  intros [rc rs rhm _ Hobj _ _ Hcnt _ Hhm Hhs _ _].
  apply view_Some. by exists (StatsObj (Some rs) (FObj rc) None), rs, rc, rhm.
Qed.

Lemma create_result_state s0 :
  exists s,
    create s0 = Some (Ret (length (stats_objs s0)), s)
    /\ result_state s0 s (length (stats_objs s0)) (Snapshot [] []).
Proof.
  eexists. split; [apply create_run |].
  eapply (ResultState _ _ _ _ (length (counter_objs s0)) (length (histo_maps s0)) []);
    hsimpl; try done; try (by apply list_lookup_middle); try constructor;
    hsimpl; try done; by apply prefix_app_r.
Qed.

(** *** The loop over the counters of one input *)

Definition add_counter (result : loc) (entry : string * Z) : M unit :=
  rc <- get_counters result ;;
  rm <- read Rcounters rc ;;
  (if falsy (obj_get rm entry.1)
   then write Rcounters rc (obj_set rm entry.1 0%Z)
   else ret tt) ;;
  rm <- read Rcounters rc ;;
  match obj_get rm entry.1 with
  | Some v => write Rcounters rc (obj_set rm entry.1 (v + entry.2)%Z)
  | None => stuck
  end.

Lemma add_counter_run s result o c m entry :
  stats_objs s !! result = Some o -> _counters o = FObj c ->
  counter_objs s !! c = Some m ->
  add_counter result entry s =
    Some (Ret tt, rset Rcounters
                    (<[c := counter_upd m entry.1 entry.2]> (counter_objs s)) s).
Proof.
  intros Ho Hc Hm. pose proof (lookup_lt_Some _ _ _ Hm) as Hlt.
  unfold add_counter, counter_upd.
  step_with (get_counters_run _ _ _ _ Ho Hc).
  step_with (read_run Rcounters _ _ _ Hm).
  destruct (falsy (obj_get m entry.1)) eqn:Hf.
  - assert (default 0%Z (obj_get m entry.1) = 0%Z) as ->.
    { destruct (obj_get m entry.1) as [v|]; [|done]. by apply Z.eqb_eq in Hf as ->. }
    step_with (write_run Rcounters _ _ _ _ Hm).
    step_by (apply read_run; hsimpl; by apply list_lookup_insert_eq).
    rewrite obj_get_set_eq.
    erewrite (write_run Rcounters c _ _ (obj_set m entry.1 0%Z))
      by (hsimpl; by apply list_lookup_insert_eq).
    hsimpl. by rewrite list_insert_insert_eq, obj_set_set.
  - destruct (obj_get m entry.1) as [v|] eqn:Hv; [|done]. cbn [default].
    step_with (ret_run tt s).
    step_with (read_run Rcounters _ _ _ Hm).
    rewrite Hv. by eapply write_run.
Qed.

Definition absorb_counters (rm m : list (string * Z)) : list (string * Z) :=
  fold_left (fun rm e => counter_upd rm e.1 e.2) m rm.

Lemma add_counters_loop s0 s r w m :
  result_state s0 s r w ->
  exists s',
    each m (add_counter r) s = Some (Ret tt, s')
    /\ result_state s0 s' r
         (Snapshot (absorb_counters (snap_counters w) m) (snap_histos w)).
Proof.
  revert s w. induction m as [|e m IH]; intros s w Hrs.
  - exists s. split; [done |]. by destruct w.
  - cbn [each]. destruct Hrs as [rc rs rhm Hext Hobj ? ? Hcnt ? Hhm Hhs ? ?].
    step_with (add_counter_run _ _ _ _ _ e Hobj eq_refl Hcnt).
    apply (IH _ (Snapshot (counter_upd (snap_counters w) e.1 e.2) (snap_histos w))).
    destruct Hext as [? Hco ? ? ?].
    eapply (ResultState _ _ _ _ rc rs rhm); hsimpl; try done.
    + split; hsimpl; try done. by apply prefix_insert_ge.
    + apply list_lookup_insert_eq. by eapply lookup_lt_Some.
Qed.
End combine_loops.

Section dictionary_values.
Context {V : Type}.

Lemma obj_get_Some_value (o : list (string * V)) k v :
  obj_get o k = Some v -> v ∈ o.*2.
Proof.
  induction o as [|[k' v'] o IH]; simpl; [done |].
  destruct (String.eqb k' k).
  - intros [= ->]. by left.
  - intros Hget. right. by apply IH.
Qed.
End dictionary_values.

Section combine_histograms.
Context `{HdrHistogram} `{JSON}.

(** Updating a histogram that the dictionary does not refer to. *)
Lemma histos_at_insert_other s hm hs t x :
  t ∉ hm.*2 ->
  histos_at s hm = Some hs ->
  histos_at (rset Rhistos (<[t := x]> (histos s)) s) hm = Some hs.
Proof.
  rewrite !histos_at_Forall2. intros Hnot Hall.
  induction Hall as [|[n l] [n' h] hm hs [Hn Hl] _ IH]; [constructor |].
  rewrite fmap_cons, not_elem_of_cons in Hnot. destruct Hnot as [Hne Hnot].
  constructor; [|by apply IH].
  split; [done |]. hsimpl. simpl in *. by rewrite list_lookup_insert_ne.
Qed.

(** Updating the histogram stored under [n], when no other name shares
    its cell. *)
Lemma histos_at_update s hm hs n t x :
  NoDup hm.*2 ->
  histos_at s hm = Some hs ->
  obj_get hm n = Some t ->
  histos_at (rset Rhistos (<[t := x]> (histos s)) s) hm = Some (obj_set hs n x).
Proof.
  intros Hnd Hhs. revert hs Hhs.
  induction hm as [|[n0 l0] hm IH]; intros hs Hhs Hget; [done |].
  apply histos_at_cons_inv in Hhs as (h0 & hs' & -> & Hl0 & Hhs').
  rewrite fmap_cons in Hnd. apply NoDup_cons in Hnd as [Hl0_notin Hnd].
  cbn [obj_get] in Hget. cbn [obj_set]. cbn [snd] in Hl0_notin.
  destruct (String.eqb n0 n) eqn:E.
  - injection Hget as <-. apply String.eqb_eq in E as ->.
    apply histos_at_cons.
    + hsimpl. apply list_lookup_insert_eq. by eapply lookup_lt_Some.
    + by apply histos_at_insert_other.
  - apply histos_at_cons.
    + hsimpl. rewrite list_lookup_insert_ne; [done |].
      intros ->. apply Hl0_notin. by eapply obj_get_Some_value.
    + by apply IH.
Qed.

Lemma histos_at_snoc s hm hs n l h :
  histos_at s hm = Some hs -> histos s !! l = Some h ->
  histos_at s (hm ++ [(n, l)])%list = Some (hs ++ [(n, h)])%list.
Proof.
  rewrite !histos_at_Forall2. intros Hall Hl.
  apply Forall2_app; [done |]. by constructor.
Qed.

Lemma histos_at_valid s hm hs l :
  histos_at s hm = Some hs -> l ∈ hm.*2 -> l < length (histos s).
Proof.
  rewrite histos_at_Forall2. intros Hall.
  induction Hall as [|[n l0] [n' h] hm hs [_ Hl] _ IH]; simpl.
  - by intros ?%elem_of_nil.
  - intros [->|Hin]%elem_of_cons; [by eapply lookup_lt_Some | by apply IH].
Qed.

(** *** The loop over the histograms of one input *)

Definition add_histogram (result : loc) (entry : string * loc) : M unit :=
  rs <- get_customStats result ;;
  rm <- read Rhistmaps rs ;;
  (if obj_has rm entry.1
   then ret tt
   else h <- new Rhistos build ;;
        write Rhistmaps rs (obj_set rm entry.1 h)) ;;
  rm <- read Rhistmaps rs ;;
  match obj_get rm entry.1 with
  | Some t =>
      x <- read Rhistos t ;;
      y <- read Rhistos entry.2 ;;
      write Rhistos t (add x y)
  | None => stuck
  end.

(** What one step of that loop does to the result's histograms. *)
Definition histo_upd (rh : list (string * histogram)) (name : string)
    (y : histogram) : list (string * histogram) :=
  obj_set rh name (add (default build (obj_get rh name)) y).

Definition absorb_histos (rh hs : list (string * histogram))
  : list (string * histogram) :=
  fold_left (fun rh e => histo_upd rh e.1 e.2) hs rh.

Lemma add_histogram_run s0 s r w n l y :
  result_state s0 s r w ->
  histos s0 !! l = Some y ->
  exists s',
    add_histogram r (n, l) s = Some (Ret tt, s')
    /\ result_state s0 s' r
         (Snapshot (snap_counters w) (histo_upd (snap_histos w) n y)).
Proof.
  intros [rc rs rhm Hext Hobj Hr Hrc Hcnt Hrs Hhm Hhs Hfresh Hnd] Hl.
  pose proof (prefix_lookup_Some _ _ _ _ Hl (ext_histos _ _ Hext)) as Hl'.
  pose proof (lookup_lt_Some _ _ _ Hl) as Hl_old.
  pose proof (prefix_length _ _ (ext_histos _ _ Hext)) as Hlen.
  unfold add_histogram, histo_upd. cbn [fst snd].
  step_with (get_customStats_run _ _ _ _ Hobj eq_refl).
  step_with (read_run Rhistmaps _ _ _ Hhm).
  pose proof (histos_at_get _ _ _ n Hhs) as Hget.
  pose proof (histos_at_keys _ _ _ Hhs) as Hkeys.
  unfold obj_has. destruct (obj_get rhm n) as [t|] eqn:Ht.
  - destruct Hget as (x & Hx & Hwx). rewrite Hwx. cbn [default].
    step_with (ret_run tt s).
    step_with (read_run Rhistmaps _ _ _ Hhm). rewrite Ht.
    step_with (read_run Rhistos _ _ _ Hx).
    step_with (read_run Rhistos _ _ _ Hl').
    rewrite (write_run Rhistos _ _ _ _ Hx).
    eexists. split; [done |].
    assert (length (histos s0) <= t) as Ht_fresh.
    { rewrite Forall_forall in Hfresh. apply Hfresh.
      by eapply obj_get_Some_value. }
    destruct Hext as [? ? ? ? Hhi].
    eapply (ResultState _ _ _ _ rc rs rhm); hsimpl; try done.
    + split; hsimpl; try done. by apply prefix_insert_ge.
    + by apply histos_at_update.
  - rewrite Hget. cbn [default].
    assert (n ∉ rhm.*1) as Hn_rhm by (by apply obj_get_None).
    assert (n ∉ (snap_histos w).*1) as Hn_w by (by apply obj_get_None).
    rewrite (obj_set_absent (snap_histos w)) by done.
    erewrite bind_Ret; cycle 1.
    { step_with (new_run Rhistos build s).
      eapply write_run. hsimpl. exact Hhm. }
    hsimpl.
    step_by (apply read_run; hsimpl; apply list_lookup_insert_eq;
             by eapply lookup_lt_Some).
    rewrite obj_get_set_eq.
    step_by (apply read_run; hsimpl; by apply list_lookup_middle).
    step_by (apply read_run; hsimpl; by apply lookup_app_l_Some).
    erewrite write_run by (hsimpl; by apply list_lookup_middle).
    eexists. split; [done |]. hsimpl.
    rewrite (obj_set_absent rhm) by done.
    rewrite insert_app_r_alt, Nat.sub_diag by lia. cbn [insert list_insert].
    destruct Hext as [? ? ? ? Hhi].
    eapply (ResultState _ _ _ _ rc rs (rhm ++ [(n, length (histos s))])%list);
      hsimpl; try done.
    + split; hsimpl; try done; [by apply prefix_insert_ge | by apply prefix_app_r].
    + apply list_lookup_insert_eq. by eapply lookup_lt_Some.
    + apply histos_at_snoc.
      * eapply histos_at_prefix; [|exact Hhs]. hsimpl. by apply prefix_app_r.
      * hsimpl. by apply list_lookup_middle.
    + rewrite fmap_app. apply Forall_app. split; [done |].
      constructor; [simpl; lia | constructor].
    + rewrite fmap_app. apply NoDup_app. split_and!; [done | | apply NoDup_singleton].
      intros t Ht_in ->%list_elem_of_singleton.
      pose proof (histos_at_valid _ _ _ _ Hhs Ht_in). simpl in *. lia.
Qed.

Lemma add_histograms_loop s0 s r w hm hs :
  result_state s0 s r w ->
  histos_at s0 hm = Some hs ->
  exists s',
    each hm (add_histogram r) s = Some (Ret tt, s')
    /\ result_state s0 s' r
         (Snapshot (snap_counters w) (absorb_histos (snap_histos w) hs)).
Proof.
  revert s w hs. induction hm as [|[n l] hm IH]; intros s w hs Hrs Hhs.
  - injection Hhs as <-. exists s. split; [done |]. by destruct w.
  - apply histos_at_cons_inv in Hhs as (y & hs' & -> & Hl & Hhs').
    cbn [each].
    destruct (add_histogram_run _ _ _ _ n l y Hrs Hl) as (s1 & Hrun & Hrs1).
    step_with Hrun.
    destruct (IH _ _ _ Hrs1 Hhs') as (s' & Hloop & Hrs'). by exists s'.
Qed.
End combine_histograms.

(** ** [combine]: the whole run and its result *)

Section fold_updates.
Context {V X : Type} (f : option V -> X -> V).

(** Folding "read, combine, write back" over a dictionary with distinct
    keys. *)
Lemma obj_get_fold_update (o : list (string * V)) (m : list (string * X)) k :
  NoDup m.*1 ->
  obj_get (fold_left (fun o e => obj_set o e.1 (f (obj_get o e.1) e.2)) m o) k
  = match obj_get m k with
    | Some x => Some (f (obj_get o k) x)
    | None => obj_get o k
    end.
Proof.
  revert o. induction m as [|[n x] m IH]; intros o Hnd; [done |].
  rewrite fmap_cons in Hnd. apply NoDup_cons in Hnd as [Hn Hnd].
  cbn [fst] in Hn.
  cbn [fold_left fst snd obj_get]. rewrite IH by done.
  destruct (String.eqb_spec n k) as [->|Hne].
  - apply obj_get_None in Hn. rewrite Hn. apply obj_get_set_eq.
  - rewrite obj_get_set_ne by done. done.
Qed.
End fold_updates.

Section combine_result.
Context `{HdrHistogram} `{JSON}.

(** The body of the outer loop of [combine]. *)
Definition absorb_stats (result stats : loc) : M unit :=
  c <- get_counters stats ;;
  m <- read Rcounters c ;;
  each m (add_counter result) ;;
  cs <- get_customStats stats ;;
  hm <- read Rhistmaps cs ;;
  each hm (add_histogram result).

Lemma combine_unfold statsObjects :
  combine statsObjects
  = (result <- create ;; each statsObjects (absorb_stats result) ;; ret result).
Proof. done. Qed.

(** What absorbing the snapshot [v] does to the contents [w] of the
    result. *)
Definition absorb (w v : snapshot) : snapshot :=
  Snapshot (absorb_counters (snap_counters w) (snap_counters v))
           (absorb_histos (snap_histos w) (snap_histos v)).

Lemma absorb_stats_run s0 s r w t v :
  result_state s0 s r w ->
  view s0 t = Some v ->
  exists s',
    absorb_stats r t s = Some (Ret tt, s') /\ result_state s0 s' r (absorb w v).
Proof.
  intros Hrs (o & cs & cc & hm & Ho & Hcs & Hcc & Hhm & Hhs & Hcnt)%view_Some.
  assert (extends s0 s) as Hext by (by destruct Hrs).
  unfold absorb_stats.
  step_by (eapply get_counters_run;
           [eapply prefix_lookup_Some; [exact Ho | apply Hext] | exact Hcc]).
  step_by (apply read_run; hsimpl; eapply prefix_lookup_Some;
           [exact Hcnt | apply Hext]).
  destruct (add_counters_loop _ _ _ _ (snap_counters v) Hrs) as (s1 & Hloop1 & Hrs1).
  step_with Hloop1.
  assert (extends s0 s1) as Hext1 by (by destruct Hrs1).
  step_by (eapply get_customStats_run;
           [eapply prefix_lookup_Some; [exact Ho | apply Hext1] | exact Hcs]).
  step_by (apply read_run; hsimpl; eapply prefix_lookup_Some;
           [exact Hhm | apply Hext1]).
  destruct (add_histograms_loop _ _ _ _ _ _ Hrs1 Hhs) as (s' & Hloop2 & Hrs').
  by exists s'.
Qed.

Lemma absorb_all_run s0 s r w l vs :
  Forall2 (fun t v => view s0 t = Some v) l vs ->
  result_state s0 s r w ->
  exists s',
    each l (absorb_stats r) s = Some (Ret tt, s')
    /\ result_state s0 s' r (fold_left absorb vs w).
Proof.
  intros Hall. revert s w.
  induction Hall as [|t v l vs Hv _ IH]; intros s w Hrs.
  - by exists s.
  - cbn [each fold_left].
    destruct (absorb_stats_run _ _ _ _ _ _ Hrs Hv) as (s1 & Hrun & Hrs1).
    step_with Hrun. by apply IH.
Qed.

Lemma combine_run s0 l vs :
  Forall2 (fun t v => view s0 t = Some v) l vs ->
  exists s',
    combine l s0 = Some (Ret (length (stats_objs s0)), s')
    /\ result_state s0 s' (length (stats_objs s0))
         (fold_left absorb vs (Snapshot [] [])).
Proof.
  intros Hall. rewrite combine_unfold.
  destruct (create_result_state s0) as (s1 & Hcreate & Hrs1).
  step_with Hcreate.
  destruct (absorb_all_run _ _ _ _ _ _ Hall Hrs1) as (s' & Hloop & Hrs').
  step_with Hloop. by exists s'.
Qed.

(** *** The counters of the result *)

Definition add_value (acc : option Z) (x : Z) : Z := (default 0 acc + x)%Z.

Definition merge_counter (k : string) (acc : option Z) (v : snapshot) : option Z :=
  match obj_get (snap_counters v) k with
  | Some x => Some (add_value acc x)
  | None => acc
  end.

Definition merge_histogram (name : string) (acc : option histogram)
    (v : snapshot) : option histogram :=
  match obj_get (snap_histos v) name with
  | Some y => Some (add (default build acc) y)
  | None => acc
  end.


Lemma absorb_counters_get w v k :
  NoDup (snap_counters v).*1 ->
  obj_get (absorb_counters (snap_counters w) (snap_counters v)) k
  = merge_counter k (obj_get (snap_counters w) k) v.
Proof. intros Hnd. by apply (obj_get_fold_update add_value). Qed.

Lemma absorb_histos_get w v name :
  NoDup (snap_histos v).*1 ->
  obj_get (absorb_histos (snap_histos w) (snap_histos v)) name
  = merge_histogram name (obj_get (snap_histos w) name) v.
Proof.
  intros Hnd.
  by apply (obj_get_fold_update (fun acc y => add (default build acc) y)).
Qed.

Lemma absorb_all_counters vs w k :
  Forall well_formed vs ->
  obj_get (snap_counters (fold_left absorb vs w)) k
  = fold_left (merge_counter k) vs (obj_get (snap_counters w) k).
Proof.
  intros Hwf. revert w. induction Hwf as [|v vs [Hv _] _ IH]; intros w; [done |].
  cbn [fold_left]. rewrite IH. cbn [absorb snap_counters].
  by rewrite absorb_counters_get.
Qed.

Lemma absorb_all_histos vs w name :
  Forall well_formed vs ->
  obj_get (snap_histos (fold_left absorb vs w)) name
  = fold_left (merge_histogram name) vs (obj_get (snap_histos w) name).
Proof.
  intros Hwf. revert w. induction Hwf as [|v vs [_ Hv] _ IH]; intros w; [done |].
  cbn [fold_left]. rewrite IH. cbn [absorb snap_histos].
  by rewrite absorb_histos_get.
Qed.


End combine_result.

(** ** [combine]: the order of the inputs *)


Section combine_order.
Context `{HdrHistogram} `{JSON}.












Lemma mapM_view_extends s0 s l vs :
  extends s0 s -> mapM (view s0) l = Some vs -> mapM (view s) l = Some vs.
Proof.
  intros Hext. rewrite !mapM_Some. intros Hall.
  eapply Forall2_impl; [exact Hall |]. intros t v. by apply view_extends.
Qed.

(** [combine] returns a new object whose contents are the inputs
    absorbed one after the other; the inputs are as they were. *)
Lemma combine_view s l vs :
  mapM (view s) l = Some vs ->
  exists r s',
    combine l s = Some (Ret r, s')
    /\ stats_objs s !! r = None
    /\ view s' r = Some (fold_left absorb vs (Snapshot [] []))
    /\ mapM (view s') l = Some vs.
Proof.
  intros Hvs. pose proof Hvs as Hall. apply mapM_Some in Hall.
  destruct (combine_run s l vs Hall) as (s' & Hrun & Hrs).
  exists (length (stats_objs s)), s'. split_and!.
  - done.
  - by apply lookup_ge_None_2.
  - by eapply result_state_view.
  - eapply mapM_view_extends; [|done]. by destruct Hrs.
Qed.
End combine_order.

(** ** [clone] and the independence of two snapshots *)

Section independence.
Context `{HdrHistogram} `{JSON}.

(** The cells a snapshot is made of: its counters object, its dictionary
    of histograms and the histograms themselves. *)
Definition footprint (s : heap) (this : loc) : option (loc * loc * list loc) :=
  o ← stats_objs s !! this;
  cs ← _customStats o;
  hm ← histo_maps s !! cs;
  match _counters o with
  | FObj cc => Some (cc, cs, hm.*2)
  | FVal _ => None
  end.

(** Two snapshots that share no cell. *)
Definition apart (s : heap) (a b : loc) : Prop :=
  exists cca csa hla ccb csb hlb,
    footprint s a = Some (cca, csa, hla)
    /\ footprint s b = Some (ccb, csb, hlb)
    /\ cca <> ccb /\ csa <> csb
    /\ forall l, l ∈ hla -> l ∉ hlb.

Lemma apart_sym s a b : apart s a b -> apart s b a.
Proof.
  intros (cca & csa & hla & ccb & csb & hlb & Ha & Hb & Hcc & Hcs & Hhl).
  exists ccb, csb, hlb, cca, csa, hla. split_and!; try done.
  intros l Hl Hl'. by apply (Hhl l).
Qed.

Lemma footprint_Some s this cc cs hl :
  footprint s this = Some (cc, cs, hl) <->
  exists o hm,
    stats_objs s !! this = Some o /\ _customStats o = Some cs
    /\ _counters o = FObj cc /\ histo_maps s !! cs = Some hm /\ hl = hm.*2.
Proof.
  unfold footprint. split.
  - intros Hf. destruct (stats_objs s !! this) as [o|]; [|done]. simpl in Hf.
    destruct (_customStats o) as [cs'|] eqn:Hcs; [|done]. simpl in Hf.
    destruct (histo_maps s !! cs') as [hm|] eqn:Hhm; [|done]. simpl in Hf.
    destruct (_counters o) as [cc'|] eqn:Hcc; [|done].
    injection Hf as <- <- <-. by exists o, hm.
  - intros (o & hm & -> & Hcs & Hcc & Hhm & ->). simpl.
    rewrite Hcs. simpl. rewrite Hhm. simpl. by rewrite Hcc.
Qed.

Lemma histos_at_is_Some s hm :
  is_Some (histos_at s hm) <-> Forall (fun l => l < length (histos s)) hm.*2.
Proof.
  split.
  - intros [hs Hhs]. apply Forall_forall. intros l Hl.
    by eapply histos_at_valid.
  - induction hm as [|[n l] hm IH]; [by eexists |].
    rewrite fmap_cons. intros [Hl Hhm]%Forall_cons. simpl in Hl.
    apply lookup_lt_is_Some_2 in Hl as [h Hh].
    destruct (IH Hhm) as [hs Hhs]. eexists. by apply histos_at_cons.
Qed.

(** A snapshot all of whose cells exist. *)
Definition valid (s : heap) (this : loc) : Prop := is_Some (view s this).

Lemma valid_footprint s this :
  valid s this <->
  exists cc cs hl,
    footprint s this = Some (cc, cs, hl)
    /\ cc < length (counter_objs s)
    /\ Forall (fun l => l < length (histos s)) hl.
Proof.
  unfold valid. split.
  - intros [v (o & cs & cc & hm & Ho & Hcs & Hcc & Hhm & Hhs & Hcnt)%view_Some].
    exists cc, cs, hm.*2. split_and!.
    + apply footprint_Some. by exists o, hm.
    + by eapply lookup_lt_Some.
    + apply histos_at_is_Some. by eexists.
  - intros (cc & cs & hl & (o & hm & Ho & Hcs & Hcc & Hhm & ->)%footprint_Some
            & Hlt & Hall).
    apply lookup_lt_is_Some_2 in Hlt as [cnt Hcnt].
    apply histos_at_is_Some in Hall as [hs Hhs].
    exists (Snapshot cnt hs). apply view_Some. by exists o, cs, cc, hm.
Qed.

(** *** [addCustomStat] *)

Lemma addCustomStat_run s this o cs hm name n :
  stats_objs s !! this = Some o -> _customStats o = Some cs ->
  histo_maps s !! cs = Some hm ->
  Forall (fun l => l < length (histos s)) hm.*2 ->
  exists s',
    addCustomStat this name n s = Some (Ret this, s')
    /\ stats_objs s' = stats_objs s
    /\ counter_objs s' = counter_objs s
    /\ encoded_maps s' = encoded_maps s
    /\ ((exists t x, obj_get hm name = Some t /\ histos s !! t = Some x
          /\ histo_maps s' = histo_maps s
          /\ histos s' = <[t := recordValue x n]> (histos s))
        \/ (obj_get hm name = None
            /\ histo_maps s'
               = <[cs := (hm ++ [(name, length (histos s))])%list]> (histo_maps s)
            /\ histos s' = (histos s ++ [recordValue build n])%list)).
Proof.
  intros Ho Hcs Hhm Hvalid. unfold addCustomStat.
  step_with (get_customStats_run _ _ _ _ Ho Hcs).
  step_with (read_run Rhistmaps _ _ _ Hhm).
  unfold obj_has. unfold loc in *.
  destruct (obj_get hm name) as [t|] eqn:Ht.
  - assert (t < length (histos s)) as Hlt.
    { rewrite Forall_forall in Hvalid. apply Hvalid.
      by eapply obj_get_Some_value. }
    apply lookup_lt_is_Some_2 in Hlt as [x Hx].
    cbv beta iota.
    step_with (ret_run tt s).
    step_with (read_run Rhistmaps _ _ _ Hhm). rewrite Ht.
    erewrite bind_Ret; cycle 1.
    { step_with (read_run Rhistos _ _ _ Hx). by eapply write_run. }
    eexists. split; [done |]. hsimpl. split_and!; try done.
    left. by exists t, x.
  - cbv beta iota.
    erewrite bind_Ret; cycle 1.
    { step_with (new_run Rhistos build s).
      eapply write_run. hsimpl. exact Hhm. }
    hsimpl.
    step_by (apply read_run; hsimpl; apply list_lookup_insert_eq;
             by eapply lookup_lt_Some).
    rewrite obj_get_set_eq.
    erewrite bind_Ret; cycle 1.
    { step_by (apply read_run; hsimpl; by apply list_lookup_middle).
      eapply write_run. hsimpl. by apply list_lookup_middle. }
    eexists. split; [done |]. hsimpl. split_and!; try done.
    right. split_and!; try done.
    + rewrite obj_set_absent; [done |]. by apply obj_get_None.
    + by rewrite insert_app_r_alt, Nat.sub_diag by lia.
Qed.
End independence.

Section frames.
Context `{HdrHistogram} `{JSON}.

Lemma footprint_ext s s' this :
  stats_objs s' = stats_objs s -> histo_maps s' = histo_maps s ->
  footprint s' this = footprint s this.
Proof. unfold footprint. by intros -> ->. Qed.

Lemma view_footprint s this v :
  view s this = Some v ->
  exists cc cs hm,
    footprint s this = Some (cc, cs, hm.*2)
    /\ histo_maps s !! cs = Some hm
    /\ counter_objs s !! cc = Some (snap_counters v)
    /\ histos_at s hm = Some (snap_histos v).
Proof.
  intros (o & cs & cc & hm & Ho & Hcs & Hcc & Hhm & Hhs & Hcnt)%view_Some.
  exists cc, cs, hm. split_and!; try done.
  apply footprint_Some. by exists o, hm.
Qed.

Lemma footprint_view s this cc cs hm cnt hs :
  footprint s this = Some (cc, cs, hm.*2) ->
  histo_maps s !! cs = Some hm ->
  counter_objs s !! cc = Some cnt ->
  histos_at s hm = Some hs ->
  view s this = Some (Snapshot cnt hs).
Proof.
  intros (o & hm' & Ho & Hcs & Hcc & Hhm' & _)%footprint_Some Hhm Hcnt Hhs.
  apply view_Some. by exists o, cs, cc, hm.
Qed.

(** A mutator called on [a] leaves a snapshot [b] that shares no cell
    with [a] as it was, and the two stay apart. *)
Lemma mutate_frame s a b m vb :
  valid s a -> view s b = Some vb -> apart s a b ->
  exists s',
    mutate a m s = Some (Ret a, s')
    /\ valid s' a /\ view s' b = Some vb /\ apart s' a b
    /\ stats_objs s' = stats_objs s.
Proof.
  intros [va Hva] Hvb Hapart.
  destruct (view_footprint _ _ _ Hva) as (cca & csa & hma & Hfa & Hhma & Hcnta & Hhsa).
  destruct (view_footprint _ _ _ Hvb) as (ccb & csb & hmb & Hfb & Hhmb & Hcntb & Hhsb).
  destruct Hapart as (cca' & csa' & hla & ccb' & csb' & hlb & Hfa' & Hfb'
                      & Hcc & Hcs & Hhl).
  rewrite Hfa in Hfa'. injection Hfa' as <- <- <-.
  rewrite Hfb in Hfb'. injection Hfb' as <- <- <-.
  pose proof Hfa as (oa & hma' & Hoa & Hcsa & Hcca & _ & _)%footprint_Some.
  assert (forall l, l ∈ hmb.*2 -> l < length (histos s)) as Hvalid_b.
  { intros l Hl. by eapply histos_at_valid. }
  assert (Forall (fun l => l < length (histos s)) hma.*2) as Hvalid_a.
  { apply histos_at_is_Some. by eexists. }
  destruct m as [name value|name n|]; cbn [mutate].
  - rewrite (counter_run _ _ _ _ _ name value Hoa Hcca Hcnta).
    eexists. split; [done |].
    assert (footprint
              (rset Rcounters
                 (<[cca := counter_upd (snap_counters va) name value]>
                    (counter_objs s)) s) a = Some (cca, csa, hma.*2)) as Hfa2
      by (by rewrite (footprint_ext s)).
    assert (footprint
              (rset Rcounters
                 (<[cca := counter_upd (snap_counters va) name value]>
                    (counter_objs s)) s) b = Some (ccb, csb, hmb.*2)) as Hfb2
      by (by rewrite (footprint_ext s)).
    split_and!.
    + unfold valid. eexists.
      eapply footprint_view; [exact Hfa2 | exact Hhma | | exact Hhsa].
      hsimpl. apply list_lookup_insert_eq. by eapply lookup_lt_Some.
    + destruct vb as [cntb hsb].
      eapply footprint_view; [exact Hfb2 | exact Hhmb | | exact Hhsb].
      hsimpl. by rewrite list_lookup_insert_ne.
    + by exists cca, csa, hma.*2, ccb, csb, hmb.*2.
    + done.
  - destruct (addCustomStat_run _ _ _ _ _ name n Hoa Hcsa Hhma Hvalid_a)
      as (s' & Hrun & Hst & Hco & Hen & Hcase).
    exists s'. split; [done |].
    destruct s as [so co hmaps em hi], s' as [so' co' hmaps' em' hi'].
    hsimpl. cbn [stats_objs counter_objs histo_maps encoded_maps histos] in *.
    subst so' co' em'.
    destruct Hcase as [(t & x & Ht & Hx & -> & ->)|(Ht & -> & ->)].
    + assert (t ∈ hma.*2) as Ht_in by (by eapply obj_get_Some_value).
      split_and!; try done.
      * apply valid_footprint. exists cca, csa, hma.*2. split_and!.
        -- by rewrite (footprint_ext (Heap so co hmaps em hi)).
        -- hsimpl. by eapply lookup_lt_Some.
        -- hsimpl. by rewrite length_insert.
      * destruct vb as [cntb hsb].
        eapply footprint_view;
          [by rewrite (footprint_ext (Heap so co hmaps em hi)) | done | done |].
        apply (histos_at_insert_other (Heap so co hmaps em hi));
          [by apply Hhl | done].
      * exists cca, csa, hma.*2, ccb, csb, hmb.*2.
        split_and!; try done;
          by rewrite (footprint_ext (Heap so co hmaps em hi)).
    + assert (footprint (Heap so co
                (<[csa := (hma ++ [(name, length hi)])%list]> hmaps) em
                (hi ++ [recordValue build n])%list) a
              = Some (cca, csa, (hma ++ [(name, length hi)])%list.*2)) as Hfa2.
      { apply footprint_Some. exists oa, (hma ++ [(name, length hi)])%list.
        split_and!; try done. hsimpl.
        apply list_lookup_insert_eq. by eapply lookup_lt_Some. }
      assert (footprint (Heap so co
                (<[csa := (hma ++ [(name, length hi)])%list]> hmaps) em
                (hi ++ [recordValue build n])%list) b
              = Some (ccb, csb, hmb.*2)) as Hfb2.
      { pose proof Hfb as (ob & hmb' & Hob & Hcsb & Hccb & Hhmb' & _)%footprint_Some.
        apply footprint_Some. exists ob, hmb. split_and!; try done.
        hsimpl. by rewrite list_lookup_insert_ne. }
      split_and!; try done.
      * apply valid_footprint. eexists _, _, _. split_and!; [exact Hfa2 | |].
        -- hsimpl. by eapply lookup_lt_Some.
        -- hsimpl. rewrite fmap_app, length_app. apply Forall_app. split.
           ++ eapply Forall_impl; [exact Hvalid_a |]. simpl. intros; lia.
           ++ constructor; [simpl; lia | constructor].
      * destruct vb as [cntb hsb].
        eapply footprint_view; [exact Hfb2 | | done |].
        -- hsimpl. by rewrite list_lookup_insert_ne.
        -- eapply histos_at_prefix; [|exact Hhsb]. hsimpl. by apply prefix_app_r.
      * eexists _, _, _, _, _, _. split_and!; [exact Hfa2 | exact Hfb2 | done | done |].
        intros l. rewrite fmap_app, elem_of_app.
        intros [Hl | ->%list_elem_of_singleton]; [by apply Hhl |].
        intros Hin. apply Hvalid_b in Hin. simpl in Hin. lia.
  - exists s. split_and!; try done.
    + unfold valid. by eexists.
    + by exists cca, csa, hma.*2, ccb, csb, hmb.*2.
Qed.

(** Any sequence of calls on [a] leaves [b] as it was. *)
Lemma mutate_all_frame ms s a b vb :
  valid s a -> view s b = Some vb -> apart s a b ->
  exists s',
    mutate_all a ms s = Some (Ret tt, s')
    /\ view s' b = Some vb /\ stats_objs s' = stats_objs s.
Proof.
  revert s. induction ms as [|m ms IH]; intros s Ha Hb Hab.
  - by exists s.
  - cbn [mutate_all].
    destruct (mutate_frame _ _ _ m _ Ha Hb Hab) as (s1 & Hrun & Ha1 & Hb1 & Hab1 & Hst1).
    step_with Hrun.
    destruct (IH _ Ha1 Hb1 Hab1) as (s' & Hrun' & Hb' & Hst').
    exists s'. split_and!; [done | done | congruence].
Qed.
End frames.

Section clone_facts.
Context `{HdrHistogram} `{JSON}.

(** [clone_histos] copies every histogram into a cell younger than
    [base]; [memo] pairs the histograms already copied with their
    copies. *)
Lemma clone_histos_run base m :
  forall s memo hs,
    histos_at s m = Some hs ->
    base <= length (histos s) ->
    (forall h h', (h, h') ∈ memo ->
       base <= h' /\ exists x, histos s !! h = Some x /\ histos s !! h' = Some x) ->
    exists m' added,
      clone_histos m memo s = Some (Ret m', rset Rhistos (histos s ++ added) s)
      /\ histos_at (rset Rhistos (histos s ++ added) s) m' = Some hs
      /\ Forall (fun l => base <= l) m'.*2.
Proof.
  induction m as [|[name h] m IH]; intros s memo hs Hhs Hbase Hmemo.
  - injection Hhs as <-. exists [], []. split_and!.
    + cbn. unfold ret. rewrite app_nil_r. by destruct s.
    + done.
    + constructor.
  - apply histos_at_cons_inv in Hhs as (x & hs' & -> & Hx & Hhs').
    cbn [clone_histos].
    destruct (list_find (fun p : loc * loc => p.1 = h) memo)
      as [[i [h0 h']]|] eqn:Hfind.
    + apply list_find_Some in Hfind as (Hi & Hh0 & _). simpl in Hh0. subst h0.
      apply list_elem_of_lookup_2 in Hi.
      destruct (Hmemo _ _ Hi) as (Hh' & x' & Hx' & Hx'').
      assert (x' = x) as -> by congruence.
      destruct (IH _ _ _ Hhs' Hbase Hmemo) as (m' & added & Hrun & Hat & Hall).
      exists ((name, h') :: m'), added. split_and!.
      * by step_with Hrun.
      * apply histos_at_cons; [|done]. hsimpl. by apply lookup_app_l_Some.
      * rewrite fmap_cons. by constructor.
    + step_with (read_run Rhistos _ _ _ Hx).
      step_with (new_run Rhistos x s). hsimpl.
      destruct (IH (rset Rhistos (histos s ++ [x]) s)
                   ((h, length (histos s)) :: memo) hs')
        as (m' & added & Hrun & Hat & Hall).
      * eapply histos_at_prefix; [|exact Hhs']. hsimpl. by apply prefix_app_r.
      * hsimpl. rewrite length_app. lia.
      * hsimpl. intros h1 h1' [[= -> ->]|Hin]%elem_of_cons.
        -- split; [done |]. exists x. split.
           ++ by apply lookup_app_l_Some.
           ++ by apply list_lookup_middle.
        -- destruct (Hmemo _ _ Hin) as (? & x1 & ? & ?).
           split; [done |]. exists x1. split; by apply lookup_app_l_Some.
      * revert Hrun Hat. hsimpl. rewrite <- app_assoc. intros Hrun Hat.
        exists ((name, length (histos s)) :: m'), ([x] ++ added)%list. split_and!.
        -- by step_with Hrun.
        -- apply histos_at_cons; [|done]. hsimpl. by apply list_lookup_middle.
        -- rewrite fmap_cons. by constructor.
Qed.

Lemma footprint_extends s0 s this fp :
  extends s0 s -> footprint s0 this = Some fp -> footprint s this = Some fp.
Proof.
  intros [Hst _ Hhm _ _]. destruct fp as [[cc cs] hl].
  intros (o & hm & Ho & Hcs & Hcc & Hhm' & ->)%footprint_Some.
  apply footprint_Some. exists o, hm. split_and!; try done.
  - by eapply prefix_lookup_Some.
  - by eapply prefix_lookup_Some.
Qed.

Lemma clone_run s this v :
  view s this = Some v -> cache_ok s this ->
  exists s1,
    clone this s = Some (Ret (length (stats_objs s)), s1)
    /\ extends s s1
    /\ view s1 (length (stats_objs s)) = Some v
    /\ apart s1 this (length (stats_objs s)).
Proof.
  intros Hv Hcache.
  destruct (view_footprint _ _ _ Hv) as (cc & cs & hm & Hf & Hhm & Hcnt & Hhs).
  pose proof Hf as (o & hm' & Ho & Hcs & Hcc & _ & _)%footprint_Some.
  destruct (clone_histos_run (length (histos s)) hm s [] _ Hhs)
    as (m' & added & Hrun & Hat & Hall); [done | by intros ? ? ?%elem_of_nil |].
  unfold clone.
  step_with (read_run Rstats _ _ _ Ho). rewrite Hcs, Hcc.
  erewrite bind_Ret; cycle 1.
  { step_with (read_run Rhistmaps _ _ _ Hhm).
    step_with Hrun.
    step_by (apply new_run). apply ret_run. }
  hsimpl.
  erewrite bind_Ret; cycle 1.
  { step_by (apply read_run; hsimpl; exact Hcnt).
    step_by (apply new_run). apply ret_run. }
  hsimpl.
  assert (exists e' em',
    match _encodedHistograms o with
    | Some e => m <- read Rencoded e ;; l <- new Rencoded m ;; ret (Some l)
    | None => ret None
    end (Heap (stats_objs s) (counter_objs s ++ [snap_counters v])
              (histo_maps s ++ [m']) (encoded_maps s) (histos s ++ added))
    = Some (Ret e',
            Heap (stats_objs s) (counter_objs s ++ [snap_counters v])
                 (histo_maps s ++ [m']) (encoded_maps s ++ em')
                 (histos s ++ added))) as (e' & em' & Hcache_run).
  { destruct (_encodedHistograms o) as [e|] eqn:He.
    - destruct (Hcache _ _ Ho He) as [enc Henc].
      exists (Some (length (encoded_maps s))), [enc].
      step_by (apply read_run; hsimpl; exact Henc).
      step_by (apply new_run). apply ret_run.
    - exists None, []. rewrite app_nil_r. apply ret_run. }
  step_with Hcache_run.
  rewrite new_run. hsimpl.
  eexists. split; [done |].
  assert (extends s
            (Heap (stats_objs s ++ [StatsObj (Some (length (histo_maps s)))
                                             (FObj (length (counter_objs s))) e'])
                  (counter_objs s ++ [snap_counters v]) (histo_maps s ++ [m'])
                  (encoded_maps s ++ em') (histos s ++ added))) as Hext.
  { split; hsimpl; by apply prefix_app_r. }
  assert (footprint
            (Heap (stats_objs s ++ [StatsObj (Some (length (histo_maps s)))
                                             (FObj (length (counter_objs s))) e'])
                  (counter_objs s ++ [snap_counters v]) (histo_maps s ++ [m'])
                  (encoded_maps s ++ em') (histos s ++ added))
            (length (stats_objs s))
          = Some (length (counter_objs s), length (histo_maps s), m'.*2)) as Hf'.
  { apply footprint_Some. eexists _, m'. hsimpl. split_and!.
    - by apply list_lookup_middle.
    - done.
    - done.
    - by apply list_lookup_middle.
    - done. }
  split_and!.
  - done.
  - destruct v as [cnt hs]. eapply footprint_view; [exact Hf' | | |].
    + hsimpl. by apply list_lookup_middle.
    + hsimpl. by apply list_lookup_middle.
    + erewrite histos_at_ext; [exact Hat | done].
  - eexists _, _, _, _, _, _. split_and!.
    + by eapply footprint_extends.
    + exact Hf'.
    + apply lookup_lt_Some in Hcnt. lia.
    + apply lookup_lt_Some in Hhm. lia.
    + intros l Hl Hl'.
      pose proof (histos_at_valid _ _ _ _ Hhs Hl) as Hlt.
      rewrite Forall_forall in Hall. specialize (Hall _ Hl'). simpl in Hall. lia.
Qed.
End clone_facts.

(** ** [reset], and payloads written by [serialize] *)

Section dictionary_all.
Context {V : Type} (P : V -> Prop).

Lemma obj_set_Forall (o : list (string * V)) k v :
  Forall (fun e => P e.2) o -> P v -> Forall (fun e => P e.2) (obj_set o k v).
Proof.
  intros Ho Hv. induction Ho as [|[k' v'] o Hv' Ho IH]; simpl.
  - by repeat constructor.
  - destruct (String.eqb k' k); by constructor.
Qed.
End dictionary_all.

Section reset_and_payloads.
Context `{HdrHistogram} `{JSON}.

Lemma reset_run s this o :
  stats_objs s !! this = Some o ->
  reset this s
  = Some (Ret this,
          Heap (<[this := StatsObj (Some (length (histo_maps s)))
                                   (FObj (length (counter_objs s)))
                                   (_encodedHistograms o)]> (stats_objs s))
               (counter_objs s ++ [[]]) (histo_maps s ++ [[]])
               (encoded_maps s) (histos s)).
Proof.
  intros Ho. pose proof (lookup_lt_Some _ _ _ Ho) as Hlt.
  unfold reset.
  step_by (apply new_run). hsimpl.
  unfold set_customStats.
  erewrite bind_Ret; cycle 1.
  { step_by (apply read_run; hsimpl; exact Ho).
    eapply write_run. hsimpl. exact Ho. }
  hsimpl. step_by (apply new_run). hsimpl.
  unfold set_counters.
  erewrite bind_Ret; cycle 1.
  { step_by (apply read_run; hsimpl; by apply list_lookup_insert_eq).
    eapply write_run. hsimpl. by apply list_lookup_insert_eq. }
  unfold ret. hsimpl. by rewrite list_insert_insert_eq.
Qed.

Lemma reset_view s this o s' :
  stats_objs s !! this = Some o ->
  reset this s = Some (Ret this, s') ->
  view s' this = Some (Snapshot [] []).
Proof.
  intros Ho. rewrite (reset_run _ _ _ Ho). intros [= <-].
  apply view_Some. eexists _, _, _, []. hsimpl. split_and!.
  - apply list_lookup_insert_eq. by eapply lookup_lt_Some.
  - done.
  - done.
  - by apply list_lookup_middle.
  - done.
  - by apply list_lookup_middle.
Qed.


End reset_and_payloads.

(** ** Snapshots built by calls *)

Section built_snapshots.
Context `{HdrHistogram} `{JSON}.

(** A mutator keeps the keys of the two dictionaries distinct, and
    touches neither the [Stats] object nor the encoded histograms. *)
Lemma mutate_well_formed s a m v :
  view s a = Some v -> well_formed v ->
  exists s' v',
    mutate a m s = Some (Ret a, s')
    /\ view s' a = Some v' /\ well_formed v'
    /\ stats_objs s' = stats_objs s /\ encoded_maps s' = encoded_maps s.
Proof.
  intros Hv [Hnd_c Hnd_h].
  pose proof Hv as (o & cs & cc & hm & Ho & Hcs & Hcc & Hhm & Hhs & Hcnt)%view_Some.
  pose proof (histos_at_keys _ _ _ Hhs) as Hkeys.
  destruct m as [name value|name n|]; cbn [mutate].
  - rewrite (counter_run _ _ _ _ _ name value Ho Hcc Hcnt).
    eexists _, (Snapshot (counter_upd (snap_counters v) name value) (snap_histos v)).
    split_and!; try done.
    + apply view_Some. exists o, cs, cc, hm. hsimpl. split_and!; try done.
      apply list_lookup_insert_eq. by eapply lookup_lt_Some.
    + split; [by apply obj_set_NoDup | done].
  - assert (Forall (fun l => l < length (histos s)) hm.*2) as Hvalid.
    { apply histos_at_is_Some. by eexists. }
    destruct (addCustomStat_run _ _ _ _ _ name n Ho Hcs Hhm Hvalid)
      as (s' & Hrun & Hst & Hco & Hen & Hcase).
    destruct Hcase as [(t & x & Ht & Hx & Hhm' & Hhi')|(Ht & Hhm' & Hhi')].
    + assert (is_Some (histos_at s' hm)) as [hs' Hhs'].
      { apply histos_at_is_Some. by rewrite Hhi', length_insert. }
      exists s', (Snapshot (snap_counters v) hs'). split_and!; try done.
      * apply view_Some. exists o, cs, cc, hm.
        rewrite Hst, Hco, Hhm'. by split_and!.
      * split; [done |]. cbn [snap_histos].
        by rewrite (histos_at_keys _ _ _ Hhs'), <- Hkeys.
    + assert (histos_at s' (hm ++ [(name, length (histos s))])%list
              = Some (snap_histos v ++ [(name, recordValue build n)])%list)
        as Hhs'.
      { apply histos_at_snoc.
        - eapply histos_at_prefix; [|exact Hhs]. rewrite Hhi'. by apply prefix_app_r.
        - rewrite Hhi'. by apply list_lookup_middle. }
      exists s', (Snapshot (snap_counters v)
                    (snap_histos v ++ [(name, recordValue build n)])%list).
      split_and!; try done.
      * apply view_Some. eexists o, cs, cc, _.
        rewrite Hst, Hco, Hhm'. split_and!; try done.
        apply list_lookup_insert_eq. by eapply lookup_lt_Some.
      * split; [done |]. cbn [snap_histos].
        rewrite fmap_app. apply NoDup_app. split_and!; [done | | apply NoDup_singleton].
        intros k Hk ->%list_elem_of_singleton.
        apply obj_get_None in Ht. apply Ht. cbn [fst] in Hk. by rewrite Hkeys in Hk.
  - by exists s, v.
Qed.

Lemma mutate_all_well_formed ms s a v :
  view s a = Some v -> well_formed v ->
  exists s' v',
    mutate_all a ms s = Some (Ret tt, s')
    /\ view s' a = Some v' /\ well_formed v'
    /\ stats_objs s' = stats_objs s /\ encoded_maps s' = encoded_maps s.
Proof.
  revert s v. induction ms as [|m ms IH]; intros s v Hv Hwf.
  - by exists s, v.
  - cbn [mutate_all].
    destruct (mutate_well_formed _ _ m _ Hv Hwf) as (s1 & v1 & Hrun & Hv1 & Hwf1 & Hst & Hen).
    step_with Hrun.
    destruct (IH _ _ Hv1 Hwf1) as (s' & v' & Hrun' & Hv' & Hwf' & Hst' & Hen').
    exists s', v'. split_and!; try done; congruence.
Qed.

(** A snapshot made by [create] and filled by calls of [counter] and
    [addCustomStat] can be read off the store, the keys of its
    dictionaries are distinct, and it has no dangling cache. *)
Lemma built_snapshot_well_formed (s0 : heap) (ms : list mutation) :
  exists this s v,
    (this <- create ;; mutate_all this ms ;; ret this) s0 = Some (Ret this, s)
    /\ view s this = Some v /\ well_formed v /\ cache_ok s this.
Proof.
  destruct (create_result_state s0) as (s1 & Hcreate & Hrs).
  pose proof (result_state_view _ _ _ _ Hrs) as Hv1.
  destruct (mutate_all_well_formed ms s1 (length (stats_objs s0)) (Snapshot [] []))
    as (s & v & Hrun & Hv & Hwf & Hst & Hen); [done | by split; constructor |].
  exists (length (stats_objs s0)), s, v. split_and!; try done.
  - step_with Hcreate. by step_with Hrun.
  - intros o e Ho He. rewrite Hst in Ho.
    destruct Hrs as [rc rs rhm _ Hobj _ _ _ _ _ _ _ _].
    rewrite Hobj in Ho. injection Ho as <-. done.
Qed.
End built_snapshots.

(** * The claims *)

(** From here on, where no implementation of the libraries is at hand,
    the reference implementations are meant. *)
#[local] Existing Instances reference_histogram reference_JSON.

(** ** Example snapshots, on the reference implementations *)

Section example_snapshots.

(** The store after a sequence of calls, the empty store if it fails. *)
Definition store_after {A} (c : M A) : heap :=
  match c empty_heap with
  | Some (_, s) => s
  | None => empty_heap
  end.

(** Worker 0 counts [x = 3] and [y = 7], worker 1 counts [x = 5]; each
    has recorded response times. *)
Definition two_workers : heap :=
  Eval vm_compute in
    store_after (a <- create ;;
                 counter a "x" 3 ;;
                 counter a "y" 7 ;;
                 counter a "engine.http.responses_received" 30 ;;
                 addCustomStat a "engine.http.response_time" 4 ;;
                 addCustomStat a "engine.http.response_time" 9 ;;
                 b <- create ;;
                 counter b "x" 5 ;;
                 addCustomStat b "engine.http.response_time" 6 ;;
                 addCustomStat b "latency" 2).

Definition worker0 : snapshot :=
  Eval vm_compute in default (Snapshot [] []) (view two_workers 0).

Definition worker1 : snapshot :=
  Eval vm_compute in default (Snapshot [] []) (view two_workers 1).

(** A snapshot whose only counters are outside the three namespaces of
    [report], or repeat a prefix inside a name. *)
Definition odd_names : M report_t :=
  this <- create ;;
  counter this "engine.http.response_codes" 5 ;;
  counter this "scenarios.created.a.scenarios.created.b" 2 ;;
  addCustomStat this "engine.http.response_time" 3 ;;
  report "" this.

(** The example of the specification. *)
Definition scenario_names : M report_t :=
  this <- create ;;
  counter this "scenarios.created" 10 ;;
  counter this "scenarios.created.login" 4 ;;
  counter this "scenarios.created.checkout" 6 ;;
  counter this "errors.ETIMEDOUT" 1 ;;
  counter this "engine.http.response_code.200" 9 ;;
  addCustomStat this "engine.http.response_time" 3 ;;
  report "" this.

(** A fresh snapshot that is reset and reported at once. *)
Definition reset_report : M report_t :=
  this <- create ;;
  reset this ;;
  report "" this.
End example_snapshots.

(** ** C6: rounding *)




(** ** C7: the namespaces of [report] *)

(** The example of the specification holds. *)
Lemma report_scenario_names :
  exists r s,
    scenario_names empty_heap = Some (Ret r, s)
    /\ scenariosCreated r = Some 10%Z
    /\ scenarioCounts r = [("login", 4%Z); ("checkout", 6%Z)]
    /\ errors r = [("ETIMEDOUT", 1%Z)]
    /\ codes r = [("200", 9%Z)].
Proof. eexists _, _. split; [vm_compute; reflexivity |]. by split_and!. Qed.

(** C7 at its failing input.  [codes] is filled for every counter whose
    name starts with [engine.http.response_code], dot or no dot, so the
    counter [engine.http.response_codes] lands under the key
    ["undefined"]; and [split(prefix)[1]] stops at the next occurrence of
    the prefix, so [scenarios.created.a.scenarios.created.b] is counted
    under ["a."]. *)
Theorem report_namespace_slips :
  exists r s,
    odd_names empty_heap = Some (Ret r, s)
    /\ codes r = [("undefined", 5%Z)]
    /\ scenarioCounts r = [("a.", 2%Z)].
Proof. eexists _, _. split; [vm_compute; reflexivity |]. by split. Qed.

(** ** C5: requests per second *)

(** C5 at every input: [report] takes no interval; [rps.count] is the
    counter [engine.http.responses_received] and [rps.mean] is that count
    divided by the constant 10. *)
Theorem report_rps_divides_by_ten `{HdrHistogram} `{JSON}
    (s : heap) (this : loc) (v : snapshot) (now : string) (r : report_t)
    (s' : heap) :
  view s this = Some v ->
  report now this s = Some (Ret r, s') ->
  rps_count (rps r) = obj_get (snap_counters v) "engine.http.responses_received"
  /\ rps_mean (rps r) = match obj_get (snap_counters v) "engine.http.responses_received" with
                  | Some n => Num (inject_Z n / 10)
                  | None => NaN
                  end.
Proof.
  intros Hv. destruct (view_counters_loc _ _ _ Hv) as [c Hc].
  rewrite (report_view _ _ _ _ _ Hv Hc). unfold report_of.
  destruct (obj_get (snap_histos v) "engine.http.response_time"); [|done].
  intros [= <- <-]. done.
Qed.

(** Thirty responses give a mean of 3, whatever the interval was. *)
Lemma report_rps_divides_by_ten_witness :
  view two_workers 0 = Some worker0
  /\ exists r,
      report "" 0 two_workers = Some (Ret r, two_workers)
      /\ rps_count (rps r) = Some 30%Z
      /\ rps_mean (rps r) = Num (inject_Z 30 / 10).
Proof.
  split; [reflexivity |].
  destruct (report (H := reference_histogram) "" 0 two_workers)
    as [[[r|e] s']|] eqn:Hr; try (vm_compute in Hr; discriminate).
  assert (s' = two_workers) as -> by (vm_compute in Hr; by injection Hr).
  exists r. split; [done |].
  exact (report_rps_divides_by_ten (H := reference_histogram) (H0 := reference_JSON)
           two_workers 0 worker0 "" r two_workers eq_refl Hr).
Defined.

(** ** C4: [reset] and then [report] *)

(** C4, as stated, fails: after [reset] the required distribution
    [engine.http.response_time] is missing and [report] throws. *)
Lemma reset_report_throws :
  (exists s, reset_report empty_heap = Some (Throw TypeError, s))
  /\ ~ (exists r s, reset_report empty_heap = Some (Ret r, s)).
Proof.
  split.
  - eexists. vm_compute. reflexivity.
  - intros (r & s & Hr). vm_compute in Hr. discriminate.
Qed.

(** C4, amended: for every snapshot, [reset] leaves it without counters
    and without custom stats, and [report] called next does not return a
    report: it throws, because the distribution
    [engine.http.response_time] is missing. *)
Theorem reset_empties_report_throws `{HdrHistogram} `{JSON}
    (s : heap) (this : loc) (o : stats_obj) (now : string) :
  stats_objs s !! this = Some o ->
  exists s',
    reset this s = Some (Ret this, s')
    /\ view s' this = Some (Snapshot [] [])
    /\ report now this s' = Some (Throw TypeError, s').
Proof.
  intros Ho. eexists. split; [by apply reset_run |].
  assert (view
            (Heap (<[this := StatsObj (Some (length (histo_maps s)))
                                      (FObj (length (counter_objs s)))
                                      (_encodedHistograms o)]> (stats_objs s))
                  (counter_objs s ++ [[]]) (histo_maps s ++ [[]])
                  (encoded_maps s) (histos s)) this
          = Some (Snapshot [] [])) as Hv.
  { eapply reset_view; [exact Ho | by apply reset_run]. }
  split; [exact Hv |].
  destruct (view_counters_loc _ _ _ Hv) as [c Hc].
  by rewrite (report_view _ _ _ _ _ Hv Hc).
Qed.

Lemma reset_empties_report_throws_witness :
  stats_objs two_workers !! 0
  = Some (StatsObj (Some 0) (FObj 0) None)
  /\ exists s',
      reset (H := reference_histogram) 0 two_workers = Some (Ret 0, s')
      /\ view s' 0 = Some (Snapshot [] [])
      /\ report "" 0 s' = Some (Throw TypeError, s').
Proof.
  split; [reflexivity |].
  exact (reset_empties_report_throws (H := reference_histogram)
           (H0 := reference_JSON) two_workers 0 _ "" eq_refl).
Defined.

(** ** C10: [serialize] leaves the snapshot as it is *)

(** C10: [serialize] succeeds on every snapshot; it changes no counters
    object, no dictionary of histograms and no histogram; the snapshot
    keeps its contents and its counters object, and [report] gives what
    it gave before.  The only changes are a new dictionary of encoded
    histograms and the field [_encodedHistograms] that refers to it. *)
Theorem serialize_keeps_snapshot `{HdrHistogram} `{JSON}
    (s : heap) (this : loc) (v : snapshot) (now : string) :
  view s this = Some v ->
  exists payload s',
    serialize this s = Some (Ret payload, s')
    /\ counter_objs s' = counter_objs s
    /\ histo_maps s' = histo_maps s
    /\ histos s' = histos s
    /\ view s' this = Some v
    /\ counters_loc s' this = counters_loc s this
    /\ (_encodedHistograms <$> stats_objs s' !! this)
       = Some (Some (length (encoded_maps s)))
    /\ is_Some (encoded_maps s' !! length (encoded_maps s))
    /\ fst <$> report now this s' = fst <$> report now this s.
Proof.
  intros Hv.
  destruct (serialize_run _ _ _ Hv) as (o & cs & cc & Ho & Hcs & Hcc & Hrun).
  pose proof (lookup_lt_Some _ _ _ Ho) as Hlt.
  eexists _, _. split; [exact Hrun |]. hsimpl.
  pose proof Hv as (o' & cs' & cc' & hm & Ho' & Hcs' & Hcc' & Hhm & Hhs & Hcnt)%view_Some.
  assert (o' = o) as -> by congruence.
  assert (cs' = cs) as -> by congruence. assert (cc' = cc) as -> by congruence.
  assert (view (Heap (<[this := StatsObj (Some cs) (FObj cc)
                                         (Some (length (encoded_maps s)))]>
                        (stats_objs s))
                     (counter_objs s) (histo_maps s)
                     (encoded_maps s ++ [encoded_view (snap_histos v) []])
                     (histos s)) this = Some v) as Hv'.
  { apply view_Some.
    exists (StatsObj (Some cs) (FObj cc) (Some (length (encoded_maps s)))), cs, cc, hm.
    hsimpl. split_and!; try done. by apply list_lookup_insert_eq. }
  assert (counters_loc (Heap (<[this := StatsObj (Some cs) (FObj cc)
                                         (Some (length (encoded_maps s)))]>
                        (stats_objs s))
                     (counter_objs s) (histo_maps s)
                     (encoded_maps s ++ [encoded_view (snap_histos v) []])
                     (histos s)) this = Some cc) as Hc'.
  { unfold counters_loc. hsimpl. by rewrite list_lookup_insert_eq. }
  assert (counters_loc s this = Some cc) as Hc.
  { unfold counters_loc. rewrite Ho. simpl. by rewrite Hcc. }
  split_and!; try done.
  - congruence.
  - by rewrite list_lookup_insert_eq.
  - rewrite list_lookup_middle; [by eexists | done].
  - by rewrite (report_view _ _ _ _ _ Hv' Hc'), (report_view _ _ _ _ _ Hv Hc).
Qed.

Lemma serialize_keeps_snapshot_witness :
  view two_workers 1 = Some worker1
  /\ exists payload s',
      serialize (H := reference_histogram) (H0 := reference_JSON) 1 two_workers
      = Some (Ret payload, s')
      /\ counter_objs s' = counter_objs two_workers
      /\ histo_maps s' = histo_maps two_workers
      /\ histos s' = histos two_workers
      /\ view s' 1 = Some worker1
      /\ counters_loc s' 1 = counters_loc two_workers 1
      /\ (_encodedHistograms <$> stats_objs s' !! 1)
         = Some (Some (length (encoded_maps two_workers)))
      /\ is_Some (encoded_maps s' !! length (encoded_maps two_workers))
      /\ fst <$> report "" 1 s' = fst <$> report "" 1 two_workers.
Proof.
  split; [reflexivity |].
  exact (serialize_keeps_snapshot (H := reference_histogram)
           (H0 := reference_JSON) two_workers 1 worker1 "" eq_refl).
Defined.

(** ** C8: when [serialize] and [deserialize] fail *)





(** ** C1: the round trip *)



(** ** C2: [combine] sums the counters *)



(** ** C3: the order of the inputs of [combine] *)



(** ** C9: [clone] *)

(** C9: [clone] returns a new snapshot with the contents of the
    original.  Whatever calls of [counter], [addCustomStat] and [free] are
    then made on the clone, they succeed and the original keeps its
    contents and its report; and the same with the two exchanged. *)
Theorem clone_is_independent `{HdrHistogram} `{JSON}
    (s : heap) (this : loc) (v : snapshot) (ms : list mutation) (now : string) :
  view s this = Some v ->
  cache_ok s this ->
  exists that s1,
    clone this s = Some (Ret that, s1)
    /\ stats_objs s !! that = None
    /\ view s1 that = Some v
    /\ view s1 this = Some v
    /\ (exists s2,
          mutate_all that ms s1 = Some (Ret tt, s2)
          /\ view s2 this = Some v
          /\ fst <$> report now this s2 = fst <$> report now this s)
    /\ (exists s2,
          mutate_all this ms s1 = Some (Ret tt, s2)
          /\ view s2 that = Some v
          /\ fst <$> report now that s2 = fst <$> report now that s1).
Proof.
  intros Hv Hcache.
  destruct (clone_run _ _ _ Hv Hcache) as (s1 & Hrun & Hext & Hthat & Hapart).
  pose proof (view_extends _ _ _ _ Hext Hv) as Hthis.
  destruct (view_counters_loc _ _ _ Hv) as [c Hc].
  pose proof (counters_loc_extends _ _ _ _ Hext Hc) as Hc1.
  destruct (view_counters_loc _ _ _ Hthat) as [c' Hc'].
  exists (length (stats_objs s)), s1. split_and!; try done.
  - by apply lookup_ge_None_2.
  - destruct (mutate_all_frame ms s1 (length (stats_objs s)) this v)
      as (s2 & Hms & Hv2 & Hst); [by eexists | done | by apply apart_sym |].
    exists s2. split_and!; try done.
    assert (counters_loc s2 this = Some c) as Hc2.
    { unfold counters_loc in *. by rewrite Hst. }
    by rewrite (report_view _ _ _ _ _ Hv2 Hc2), (report_view _ _ _ _ _ Hv Hc).
  - destruct (mutate_all_frame ms s1 this (length (stats_objs s)) v)
      as (s2 & Hms & Hv2 & Hst); [by eexists | done | done |].
    exists s2. split_and!; try done.
    assert (counters_loc s2 (length (stats_objs s)) = Some c') as Hc2.
    { unfold counters_loc in *. by rewrite Hst. }
    by rewrite (report_view _ _ _ _ _ Hv2 Hc2), (report_view _ _ _ _ _ Hthat Hc').
Qed.

(** The calls made on one of the two snapshots in the example. *)
Definition some_calls : list mutation :=
  [MCounter "x" 10; MAddCustomStat "engine.http.response_time" 99;
   MAddCustomStat "other" 1; MFree; MCounter "z" 1].

Lemma clone_is_independent_witness :
  view two_workers 0 = Some worker0
  /\ cache_ok two_workers 0
  /\ exists that s1,
      clone 0 two_workers = Some (Ret that, s1)
      /\ stats_objs two_workers !! that = None
      /\ view s1 that = Some worker0
      /\ view s1 0 = Some worker0
      /\ (exists s2,
            mutate_all that some_calls s1 = Some (Ret tt, s2)
            /\ view s2 0 = Some worker0
            /\ fst <$> report "" 0 s2 = fst <$> report "" 0 two_workers)
      /\ (exists s2,
            mutate_all 0 some_calls s1 = Some (Ret tt, s2)
            /\ view s2 that = Some worker0
            /\ fst <$> report "" that s2 = fst <$> report "" that s1).
Proof.
  assert (cache_ok two_workers 0) as Hcache.
  { intros o e [= <-]. discriminate. }
  split; [reflexivity |]. split; [exact Hcache |].
  exact (clone_is_independent two_workers 0 worker0 some_calls "" eq_refl Hcache).
Defined.

(** * Further properties of the module *)

(** What follows covers the functions beyond the claims.  A dictionary is
    an association list in the order of insertion; JavaScript enumerates
    integer-like names first, so these properties are stated on what is
    stored under a name, not on the order of the names. *)

(** ** [round] (lines 197-200) *)










(** ** [counter] and [addCustomStat] (lines 151-173) *)

Section calls.
Context `{HdrHistogram} `{JSON}.

(** The histograms of a snapshot are cells of their own: no two names of
    its dictionary refer to one histogram. *)
Definition distinct_cells (s : heap) (this : loc) : Prop :=
  exists cc cs hl, footprint s this = Some (cc, cs, hl) /\ NoDup hl.

(** What [addCustomStat] does to the distributions of a snapshot. *)
Definition record_value (hs : list (string * histogram)) (name : string) (n : N)
  : list (string * histogram) :=
  obj_set hs name (recordValue (default build (obj_get hs name)) n).

(** What a call does to the contents of a snapshot. *)
Definition apply_call (v : snapshot) (m : mutation) : snapshot :=
  match m with
  | MCounter name value =>
      Snapshot (counter_upd (snap_counters v) name value) (snap_histos v)
  | MAddCustomStat name n =>
      Snapshot (snap_counters v) (record_value (snap_histos v) name n)
  | MFree => v
  end.

Lemma snapshot_eta (v : snapshot) : Snapshot (snap_counters v) (snap_histos v) = v.
Proof. by destruct v. Qed.

Lemma counter_view s this v name value :
  view s this = Some v ->
  exists s',
    counter this name value s = Some (Ret this, s')
    /\ view s' this = Some (apply_call v (MCounter name value))
    /\ footprint s' this = footprint s this
    /\ stats_objs s' = stats_objs s /\ histo_maps s' = histo_maps s
    /\ histos s' = histos s /\ encoded_maps s' = encoded_maps s.
Proof.
  intros (o & cs & cc & hm & Ho & Hcs & Hcc & Hhm & Hhs & Hcnt)%view_Some.
  rewrite (counter_run _ _ _ _ _ name value Ho Hcc Hcnt).
  eexists. split; [done |]. split_and!; try done.
  apply view_Some. exists o, cs, cc, hm. hsimpl. split_and!; try done.
  apply list_lookup_insert_eq. by eapply lookup_lt_Some.
Qed.

Lemma addCustomStat_view s this v name n :
  view s this = Some v -> distinct_cells s this ->
  exists s',
    addCustomStat this name n s = Some (Ret this, s')
    /\ view s' this = Some (apply_call v (MAddCustomStat name n))
    /\ distinct_cells s' this
    /\ stats_objs s' = stats_objs s /\ counter_objs s' = counter_objs s
    /\ encoded_maps s' = encoded_maps s.
Proof.
  intros Hv (cc0 & cs0 & hl & Hf & Hnd).
  pose proof Hv as (o & cs & cc & hm & Ho & Hcs & Hcc & Hhm & Hhs & Hcnt)%view_Some.
  assert (footprint s this = Some (cc, cs, hm.*2)) as Hf'
    by (apply footprint_Some; by exists o, hm).
  rewrite Hf' in Hf. injection Hf as <- <- <-.
  assert (Forall (fun l => l < length (histos s)) hm.*2) as Hvalid.
  { apply histos_at_is_Some. by eexists. }
  destruct (addCustomStat_run _ _ _ _ _ name n Ho Hcs Hhm Hvalid)
    as (s' & Hrun & Hst & Hco & Hen & Hcase).
  exists s'. split; [done |].
  pose proof (histos_at_get _ _ _ name Hhs) as Hget. unfold loc in *.
  destruct s as [so co hmaps em hi], s' as [so' co' hmaps' em' hi'].
  cbn [stats_objs counter_objs histo_maps encoded_maps histos] in *.
  subst so' co' em'. cbn [apply_call]. unfold record_value.
  destruct Hcase as [(t & x & Ht & Hx & -> & ->)|(Ht & -> & ->)].
  - rewrite Ht in Hget. destruct Hget as (x' & Hx' & Hgx).
    cbn [histos] in Hx'. assert (x' = x) as -> by congruence.
    rewrite Hgx. cbn [default]. split_and!; try done.
    + apply view_Some. exists o, cs, cc, hm.
      cbn [stats_objs counter_objs histo_maps histos snap_counters snap_histos].
      split_and!; try done.
      by apply (histos_at_update (Heap so co hmaps em hi)).
    + exists cc, cs, hm.*2. split; [|done].
      by rewrite (footprint_ext (Heap so co hmaps em hi)).
  - rewrite Ht in Hget. rewrite Hget. cbn [default].
    rewrite obj_set_absent by (by apply obj_get_None).
    split_and!; try done.
    + apply view_Some. exists o, cs, cc, (hm ++ [(name, length hi)])%list.
      cbn [stats_objs counter_objs histo_maps histos snap_counters snap_histos].
      split_and!; try done.
      * apply list_lookup_insert_eq. by eapply lookup_lt_Some.
      * apply histos_at_snoc.
        -- eapply histos_at_prefix; [|exact Hhs]. hsimpl. by apply prefix_app_r.
        -- hsimpl. by apply list_lookup_middle.
    + exists cc, cs, (hm ++ [(name, length hi)])%list.*2. split.
      * apply footprint_Some. exists o, (hm ++ [(name, length hi)])%list.
        split_and!; try done. hsimpl.
        apply list_lookup_insert_eq. by eapply lookup_lt_Some.
      * rewrite fmap_app. apply NoDup_app. split_and!; [done | | apply NoDup_singleton].
        intros l Hl ->%list_elem_of_singleton.
        rewrite Forall_forall in Hvalid. apply Hvalid in Hl. simpl in Hl. lia.
Qed.

(** A call on a snapshot with histograms of its own changes its contents
    as [apply_call] says, and keeps the histograms its own. *)
Lemma mutate_view s this m v :
  view s this = Some v -> distinct_cells s this ->
  exists s',
    mutate this m s = Some (Ret this, s')
    /\ view s' this = Some (apply_call v m)
    /\ distinct_cells s' this
    /\ stats_objs s' = stats_objs s.
Proof.
  intros Hv Hd. destruct m as [name value|name n|]; cbn [mutate].
  - destruct (counter_view _ _ _ name value Hv)
      as (s' & Hrun & Hv' & Hf & Hst & _).
    exists s'. split_and!; try done.
    destruct Hd as (cc & cs & hl & Hf' & Hnd). exists cc, cs, hl.
    by rewrite Hf.
  - destruct (addCustomStat_view _ _ _ name n Hv Hd)
      as (s' & Hrun & Hv' & Hd' & Hst & _).
    by exists s'.
  - by exists s.
Qed.

Lemma mutate_all_view ms s this v :
  view s this = Some v -> distinct_cells s this ->
  exists s',
    mutate_all this ms s = Some (Ret tt, s')
    /\ view s' this = Some (fold_left apply_call ms v)
    /\ distinct_cells s' this
    /\ stats_objs s' = stats_objs s.
Proof.
  revert s v. induction ms as [|m ms IH]; intros s v Hv Hd.
  - by exists s.
  - cbn [mutate_all fold_left].
    destruct (mutate_view _ _ m _ Hv Hd) as (s1 & Hrun & Hv1 & Hd1 & Hst1).
    step_with Hrun.
    destruct (IH _ _ Hv1 Hd1) as (s' & Hrun' & Hv' & Hd' & Hst').
    exists s'. split_and!; [done | done | done | congruence].
Qed.

End calls.

Section dictionary_order.
Context {V : Type}.

Lemma obj_get_is_Some (o : list (string * V)) k :
  is_Some (obj_get o k) <-> k ∈ o.*1.
Proof.
  rewrite <- not_eq_None_Some, obj_get_None.
  destruct (decide (k ∈ o.*1)); tauto.
Qed.

Lemma obj_set_keys_prefix (o : list (string * V)) k v :
  o.*1 `prefix_of` (obj_set o k v).*1.
Proof.
  rewrite obj_set_keys. destruct (obj_has o k); [done | by apply prefix_app_r].
Qed.
End dictionary_order.


(** Calls that never take anything off a counter. *)
Definition counts_up (m : mutation) : Prop :=
  match m with
  | MCounter _ value => (0 <= value)%Z
  | _ => True
  end.

Section call_properties.
Context `{HdrHistogram} `{JSON}.

Lemma apply_call_prefix v m :
  (snap_counters v).*1 `prefix_of` (snap_counters (apply_call v m)).*1
  /\ (snap_histos v).*1 `prefix_of` (snap_histos (apply_call v m)).*1.
Proof.
  destruct m as [name value|name n|]; cbn [apply_call snap_counters snap_histos];
    split; try done; apply obj_set_keys_prefix.
Qed.

Lemma apply_calls_prefix ms v :
  (snap_counters v).*1 `prefix_of` (snap_counters (fold_left apply_call ms v)).*1
  /\ (snap_histos v).*1 `prefix_of` (snap_histos (fold_left apply_call ms v)).*1.
Proof.
  revert v. induction ms as [|m ms IH]; intros v; [done |].
  cbn [fold_left]. destruct (apply_call_prefix v m) as [Hc Hh].
  destruct (IH (apply_call v m)) as [Hc' Hh']. split; by etrans.
Qed.

Lemma apply_calls_nonnegative ms v :
  Forall counts_up ms ->
  Forall (fun e => (0 <= e.2)%Z) (snap_counters v) ->
  Forall (fun e => (0 <= e.2)%Z) (snap_counters (fold_left apply_call ms v)).
Proof.
  intros Hms. revert v. induction Hms as [|m ms Hm _ IH]; intros v Hv; [done |].
  cbn [fold_left]. apply IH.
  destruct m as [name value|name n|]; cbn [apply_call snap_counters]; try done.
  apply (obj_set_Forall (fun x => (0 <= x)%Z)); [done |].
  simpl in Hm. destruct (obj_get (snap_counters v) name) as [x|] eqn:Hx;
    cbn [default from_option id]; [|lia].
  assert (0 <= x)%Z; [|lia].
  clear -Hv Hx. induction Hv as [|[k y] o Hy _ IH]; [done |].
  cbn [obj_get] in Hx. destruct (String.eqb k name); [|by apply IH].
  injection Hx as <-. done.
Qed.





(** X9: no call of [counter], [addCustomStat] or [free] removes a
    name: after any sequence of calls every counter and every
    distribution that was there is still there. *)
Theorem calls_keep_names s this v ms :
  view s this = Some v -> distinct_cells s this ->
  exists s' v',
    mutate_all this ms s = Some (Ret tt, s')
    /\ view s' this = Some v'
    /\ (forall k, is_Some (obj_get (snap_counters v) k) ->
                  is_Some (obj_get (snap_counters v') k))
    /\ (forall k, is_Some (obj_get (snap_histos v) k) ->
                  is_Some (obj_get (snap_histos v') k)).
Proof.
  intros Hv Hd.
  destruct (mutate_all_view ms _ _ _ Hv Hd) as (s' & Hrun & Hv' & _).
  exists s', (fold_left apply_call ms v).
  destruct (apply_calls_prefix ms v) as [Hc Hh].
  destruct Hc as [cs' Hc], Hh as [hs' Hh].
  split_and!; try done; intros k; rewrite !obj_get_is_Some; intros Hk.
  - rewrite Hc. apply elem_of_app. by left.
  - rewrite Hh. apply elem_of_app. by left.
Qed.

(** X10: counters that are only counted up stay non-negative: if no
    counter is negative and no call of [counter] passes a negative
    value, no counter is negative after the calls. *)
Theorem counters_stay_nonnegative s this v ms :
  view s this = Some v -> distinct_cells s this ->
  Forall (fun e => (0 <= e.2)%Z) (snap_counters v) ->
  Forall counts_up ms ->
  exists s' v',
    mutate_all this ms s = Some (Ret tt, s')
    /\ view s' this = Some v'
    /\ Forall (fun e => (0 <= e.2)%Z) (snap_counters v').
Proof.
  intros Hv Hd Hpos Hms.
  destruct (mutate_all_view ms _ _ _ Hv Hd) as (s' & Hrun & Hv' & _).
  exists s', (fold_left apply_call ms v). split_and!; try done.
  by apply apply_calls_nonnegative.
Qed.
End call_properties.

Lemma worker0_distinct_cells : distinct_cells two_workers 0.
Proof.
  exists 0, 0, [0]. split; [reflexivity |].
  apply (bool_decide_unpack (NoDup [0])). vm_compute. exact I.
Qed.

(** A sequence of calls that only counts up. *)
Definition more_calls : list mutation :=
  [MCounter "x" 2; MAddCustomStat "latency" 5; MCounter "errors.ETIMEDOUT" 1;
   MFree; MAddCustomStat "engine.http.response_time" 12; MCounter "x" 0].




Lemma calls_keep_names_witness :
  view two_workers 0 = Some worker0
  /\ distinct_cells two_workers 0
  /\ exists s' v',
      mutate_all 0 more_calls two_workers = Some (Ret tt, s')
      /\ view s' 0 = Some v'
      /\ (forall k, is_Some (obj_get (snap_counters worker0) k) ->
                    is_Some (obj_get (snap_counters v') k))
      /\ (forall k, is_Some (obj_get (snap_histos worker0) k) ->
                    is_Some (obj_get (snap_histos v') k)).
Proof.
  split; [reflexivity |]. split; [exact worker0_distinct_cells |].
  exact (calls_keep_names two_workers 0 worker0 more_calls eq_refl
           worker0_distinct_cells).
Defined.

Lemma worker0_nonnegative : Forall (fun e => (0 <= e.2)%Z) (snap_counters worker0).
Proof. repeat constructor; simpl; lia. Qed.

Lemma more_calls_count_up : Forall counts_up more_calls.
Proof. repeat constructor; simpl; lia. Qed.

Lemma counters_stay_nonnegative_witness :
  view two_workers 0 = Some worker0
  /\ distinct_cells two_workers 0
  /\ Forall (fun e => (0 <= e.2)%Z) (snap_counters worker0)
  /\ Forall counts_up more_calls
  /\ exists s' v',
      mutate_all 0 more_calls two_workers = Some (Ret tt, s')
      /\ view s' 0 = Some v'
      /\ Forall (fun e => (0 <= e.2)%Z) (snap_counters v').
Proof.
  split; [reflexivity |]. split; [exact worker0_distinct_cells |].
  split; [exact worker0_nonnegative |]. split; [exact more_calls_count_up |].
  exact (counters_stay_nonnegative two_workers 0 worker0 more_calls eq_refl
           worker0_distinct_cells worker0_nonnegative more_calls_count_up).
Defined.

(** ** [report] (lines 83-149) *)

Section reading.
Context `{HdrHistogram} `{JSON}.

(** A computation that leaves the store as it found it. *)
Definition reads_only {A} (c : M A) : Prop :=
  forall s, match c s with Some (_, s') => s' = s | None => True end.

Lemma reads_only_ret {A} (a : A) : reads_only (ret a).
Proof. by intros s. Qed.

Lemma reads_only_throw {A} (e : error) : reads_only (throw (A := A) e).
Proof. by intros s. Qed.

Lemma reads_only_stuck {A} : reads_only (stuck (A := A)).
Proof. by intros s. Qed.

Lemma reads_only_read {T} (r : region T) (l : loc) : reads_only (read r l).
Proof. intros s. unfold read. by destruct (rget r s !! l). Qed.

Lemma reads_only_bind {A B} (c : M A) (k : A -> M B) :
  reads_only c -> (forall a, reads_only (k a)) -> reads_only (bind c k).
Proof.
  intros Hc Hk s. unfold bind. specialize (Hc s).
  destruct (c s) as [[[a|e] s1]|]; [| done | done].
  subst s1. apply Hk.
Qed.

Lemma reads_only_get_counters this : reads_only (get_counters this).
Proof.
  apply reads_only_bind; [apply reads_only_read |].
  intros o. destruct (_counters o); [apply reads_only_ret | apply reads_only_stuck].
Qed.

Lemma reads_only_get_customStats this : reads_only (get_customStats this).
Proof.
  apply reads_only_bind; [apply reads_only_read |].
  intros o. destruct (_customStats o); [apply reads_only_ret | apply reads_only_stuck].
Qed.

Lemma reads_only_customStats_of hm acc : reads_only (customStats_of hm acc).
Proof.
  revert acc. induction hm as [|[name l] hm IH]; intros acc; cbn [customStats_of].
  - apply reads_only_ret.
  - apply reads_only_bind; [apply reads_only_read |]. intros ns. apply IH.
Qed.

Lemma reads_only_report now this : reads_only (report now this).
Proof.
  unfold report.
  apply reads_only_bind; [apply reads_only_get_counters |]. intros c.
  apply reads_only_bind; [apply reads_only_read |]. intros cnt.
  apply reads_only_bind; [apply reads_only_get_customStats |]. intros cs.
  apply reads_only_bind; [apply reads_only_read |]. intros hm.
  destruct (obj_get hm "engine.http.response_time"); [|apply reads_only_throw].
  apply reads_only_bind; [apply reads_only_read |]. intros ns.
  apply reads_only_bind; [apply reads_only_customStats_of |]. intros stats.
  apply reads_only_ret.
Qed.

Lemma customStats_view_fresh (hs : list (string * histogram))
    (acc : list (string * customStat_t)) :
  NoDup (acc.*1 ++ hs.*1) ->
  customStats_view hs acc
  = (acc ++ ((fun e => (e.1, customStat_of e.2)) <$> hs))%list.
Proof.
  unfold customStats_view. revert acc.
  induction hs as [|[k h] hs IH]; intros acc Hnd; cbn [fold_left fmap list_fmap].
  - by rewrite app_nil_r.
  - rewrite fmap_cons in Hnd. cbn [fst] in Hnd.
    apply NoDup_app in Hnd as (Hacc & Hdisj & [Hk Hhs]%NoDup_cons).
    cbn [fst snd]. rewrite obj_set_absent; cycle 1.
    { intros Hin. apply (Hdisj _ Hin). by left. }
    rewrite IH.
    + by rewrite <- app_assoc.
    + rewrite fmap_app. cbn [fmap list_fmap fst]. rewrite <- app_assoc.
      apply NoDup_app. split_and!; [done | |].
      * intros x Hx [->|Hx']%elem_of_cons.
        -- apply (Hdisj _ Hx). by left.
        -- apply (Hdisj _ Hx). by right.
      * cbn [app]. by constructor.
Qed.

Lemma obj_get_customStats (hs : list (string * histogram)) name :
  obj_get ((fun e => (e.1, customStat_of e.2)) <$> hs) name
  = customStat_of <$> obj_get hs name.
Proof.
  induction hs as [|[k h] hs IH]; [done |].
  cbn [fmap list_fmap obj_get fst snd]. by destruct (String.eqb k name).
Qed.

(** X11: [report] reads the store and writes nothing: whatever it
    returns or throws, the store is the one it was called in. *)
Theorem report_reads_only now this s :
  match report now this s with
  | Some (_, s') => s' = s
  | None => True
  end.
Proof. apply reads_only_report. Qed.


(** X13: [customStats] of a report has an entry exactly for the
    distributions of the snapshot, each with the six rounded statistics
    of its histogram; and [latency] is the entry of
    [engine.http.response_time] without its [p75]. *)
Theorem report_customStats now s this v r s' :
  view s this = Some v -> NoDup (snap_histos v).*1 ->
  report now this s = Some (Ret r, s') ->
  (forall name, obj_get (customStats r) name
                = customStat_of <$> obj_get (snap_histos v) name)
  /\ exists c,
      obj_get (customStats r) "engine.http.response_time" = Some c
      /\ latency r = Latency (stat_min c) (stat_max c) (stat_median c)
                             (stat_p95 c) (stat_p99 c).
Proof.
  intros Hv Hnd. destruct (view_counters_loc _ _ _ Hv) as [c Hc].
  rewrite (report_view _ _ _ _ _ Hv Hc). unfold report_of.
  destruct (obj_get (snap_histos v) "engine.http.response_time") as [ns|] eqn:Hns;
    [|done].
  intros [= <- <-]. cbn [customStats latency].
  rewrite customStats_view_fresh by done. cbn [app].
  split; [intros name; apply obj_get_customStats |].
  exists (customStat_of ns). by rewrite obj_get_customStats, Hns.
Qed.

(** X14: the [counters] field of a report is the snapshot's own counters
    object, not a copy of it: whatever calls are made on the snapshot
    after the report was taken, the report's [counters] are the
    snapshot's counters of the moment. *)
Theorem report_counters_shared now s this v r s0 ms :
  view s this = Some v -> distinct_cells s this ->
  report now this s = Some (Ret r, s0) ->
  exists s' v',
    mutate_all this ms s = Some (Ret tt, s')
    /\ view s' this = Some v'
    /\ counter_objs s' !! counters r = Some (snap_counters v').
Proof.
  intros Hv Hd.
  pose proof Hv as (o & cs & cc & hm & Ho & Hcs & Hcc & Hhm & Hhs & Hcnt)%view_Some.
  rewrite (report_run _ _ _ _ _ _ Hv Ho Hcc). unfold report_of.
  destruct (obj_get (snap_histos v) "engine.http.response_time"); [|done].
  intros [= <- <-]. cbn [counters].
  destruct (mutate_all_view ms _ _ _ Hv Hd) as (s' & Hrun & Hv' & _ & Hst).
  exists s', (fold_left apply_call ms v). split_and!; try done.
  apply view_Some in Hv' as (o' & cs' & cc' & hm' & Ho' & _ & Hcc' & _ & _ & Hcnt').
  rewrite Hst, Ho in Ho'. injection Ho' as <-. congruence.
Qed.

(** X15: [reset] installs two new dictionaries and leaves the old ones
    as they were: the snapshot is empty afterwards, and a report taken
    before still shows, in its [counters], the counters it was taken
    with.  The encoded histograms of an earlier [serialize] stay on the
    object. *)
Theorem reset_installs_new_dictionaries now s this v r s0 :
  view s this = Some v ->
  report now this s = Some (Ret r, s0) ->
  exists s',
    reset this s = Some (Ret this, s')
    /\ view s' this = Some (Snapshot [] [])
    /\ counter_objs s' !! counters r = Some (snap_counters v)
    /\ (_encodedHistograms <$> stats_objs s' !! this)
       = (_encodedHistograms <$> stats_objs s !! this)
    /\ encoded_maps s' = encoded_maps s.
Proof.
  intros Hv.
  pose proof Hv as (o & cs & cc & hm & Ho & Hcs & Hcc & Hhm & Hhs & Hcnt)%view_Some.
  rewrite (report_run _ _ _ _ _ _ Hv Ho Hcc). unfold report_of.
  destruct (obj_get (snap_histos v) "engine.http.response_time"); [|done].
  intros [= <- <-]. cbn [counters].
  pose proof (reset_run _ _ _ Ho) as Hrun.
  eexists. split; [exact Hrun |]. split_and!.
  - by eapply reset_view.
  - hsimpl. by apply lookup_app_l_Some.
  - hsimpl. rewrite list_lookup_insert_eq by (by eapply lookup_lt_Some).
    by rewrite Ho.
  - done.
Qed.
End reading.


Lemma worker0_names_distinct : NoDup (snap_histos worker0).*1.
Proof.
  apply (bool_decide_unpack (NoDup (snap_histos worker0).*1)). vm_compute. exact I.
Qed.

Lemma report_customStats_witness :
  view two_workers 0 = Some worker0
  /\ NoDup (snap_histos worker0).*1
  /\ exists r,
      report "" 0 two_workers = Some (Ret r, two_workers)
      /\ (forall name, obj_get (customStats r) name
                       = customStat_of <$> obj_get (snap_histos worker0) name)
      /\ exists c,
          obj_get (customStats r) "engine.http.response_time" = Some c
          /\ latency r = Latency (stat_min c) (stat_max c) (stat_median c)
                                 (stat_p95 c) (stat_p99 c).
Proof.
  split; [reflexivity |]. split; [exact worker0_names_distinct |].
  destruct (report (H := reference_histogram) "" 0 two_workers)
    as [[[r|e] s']|] eqn:Hr; try (vm_compute in Hr; discriminate).
  assert (s' = two_workers) as -> by (vm_compute in Hr; by injection Hr).
  exists r. split; [done |].
  exact (report_customStats (H := reference_histogram)
           "" two_workers 0 worker0 r two_workers eq_refl
           worker0_names_distinct Hr).
Defined.

Lemma report_counters_shared_witness :
  view two_workers 0 = Some worker0
  /\ distinct_cells two_workers 0
  /\ exists r,
      report "" 0 two_workers = Some (Ret r, two_workers)
      /\ exists s' v',
          mutate_all 0 more_calls two_workers = Some (Ret tt, s')
          /\ view s' 0 = Some v'
          /\ counter_objs s' !! counters r = Some (snap_counters v').
Proof.
  split; [reflexivity |]. split; [exact worker0_distinct_cells |].
  destruct (report (H := reference_histogram) "" 0 two_workers)
    as [[[r|e] s']|] eqn:Hr; try (vm_compute in Hr; discriminate).
  assert (s' = two_workers) as -> by (vm_compute in Hr; by injection Hr).
  exists r. split; [done |].
  exact (report_counters_shared (H := reference_histogram)
           "" two_workers 0 worker0 r two_workers more_calls eq_refl
           worker0_distinct_cells Hr).
Defined.

Lemma reset_installs_new_dictionaries_witness :
  view two_workers 0 = Some worker0
  /\ exists r,
      report "" 0 two_workers = Some (Ret r, two_workers)
      /\ exists s',
          reset 0 two_workers = Some (Ret 0, s')
          /\ view s' 0 = Some (Snapshot [] [])
          /\ counter_objs s' !! counters r = Some (snap_counters worker0)
          /\ (_encodedHistograms <$> stats_objs s' !! 0)
             = (_encodedHistograms <$> stats_objs two_workers !! 0)
          /\ encoded_maps s' = encoded_maps two_workers.
Proof.
  split; [reflexivity |].
  destruct (report (H := reference_histogram) "" 0 two_workers)
    as [[[r|e] s']|] eqn:Hr; try (vm_compute in Hr; discriminate).
  assert (s' = two_workers) as -> by (vm_compute in Hr; by injection Hr).
  exists r. split; [done |].
  exact (reset_installs_new_dictionaries (H := reference_histogram) "" two_workers 0 worker0 r two_workers
           eq_refl Hr).
Defined.

(** ** The namespaces of [report] (lines 89-95, 115-129) *)





Section strings.
















End strings.

Section namespaces.
Context `{HdrHistogram} `{JSON}.





End namespaces.






(** ** [combine] (lines 45-73) *)

Section combine_properties.
Context `{HdrHistogram} `{JSON}.

Lemma merge_histogram_is_Some name vs acc :
  is_Some (fold_left (merge_histogram name) vs acc)
  <-> is_Some acc \/ Exists (fun v => is_Some (obj_get (snap_histos v) name)) vs.
Proof.
  revert acc. induction vs as [|v vs IH]; intros acc; cbn [fold_left].
  - rewrite Exists_nil. tauto.
  - rewrite IH, Exists_cons. unfold merge_histogram.
    destruct (obj_get (snap_histos v) name) as [y|].
    + split; [intros _; right; left; by eexists | intros _; left; by eexists].
    + split; [intros [?|?]; [by left | by right; right]
             | intros [?|[[? ?]|?]]; [by left | done | by right]].
Qed.

(** The result of [combine] shares no cell with a snapshot that was
    there before. *)
Lemma result_state_apart s0 s r w t :
  result_state s0 s r w -> valid s0 t -> apart s t r.
Proof.
  intros [rc rs rhm Hext Hobj Hr Hrc Hcnt Hrs Hhm Hhs Hfresh Hnd].
  intros (cc & cs & hl & Hf & Hcc & Hhl)%valid_footprint.
  pose proof Hf as (o & hm & Ho & Hcs & Hco & Hhm0 & ->)%footprint_Some.
  apply lookup_lt_Some in Hhm0.
  exists cc, cs, hm.*2, rc, rs, rhm.*2. split_and!.
  - by eapply footprint_extends.
  - apply footprint_Some. by eexists _, rhm.
  - unfold loc in *. lia.
  - unfold loc in *. lia.
  - intros l Hl Hl'. rewrite Forall_forall in Hhl, Hfresh.
    apply Hhl in Hl. apply Hfresh in Hl'. lia.
Qed.

(** X18: in the result of [combine] a distribution has a name exactly
    when some input has a distribution of that name, and it is a new
    histogram of the fixed configuration to which the histograms of that
    name were added, one input after the other. *)
Theorem combine_merges_distributions s statsObjects vs name :
  mapM (view s) statsObjects = Some vs ->
  Forall well_formed vs ->
  exists result s' w,
    combine statsObjects s = Some (Ret result, s')
    /\ view s' result = Some w
    /\ obj_get (snap_histos w) name
       = fold_left (fun acc v =>
                      match obj_get (snap_histos v) name with
                      | Some y => Some (add (default build acc) y)
                      | None => acc
                      end) vs None
    /\ (is_Some (obj_get (snap_histos w) name)
        <-> Exists (fun v => is_Some (obj_get (snap_histos v) name)) vs).
Proof.
  intros Hvs Hwf.
  destruct (combine_view _ _ _ Hvs) as (r & s' & Hrun & Hfresh & Hw & Hvs').
  eexists r, s', _. split_and!; try done.
  - by rewrite absorb_all_histos.
  - rewrite absorb_all_histos by done. cbn [snap_histos obj_get].
    rewrite merge_histogram_is_Some. split; [intros [[? ?]|?]; done | by right].
Qed.

(** X19: the result of [combine] can be reported exactly when some input
    has the distribution [engine.http.response_time]; otherwise, and so
    for the combination of no snapshot at all, [report] throws a
    [TypeError]. *)
Theorem combine_report s statsObjects vs now :
  mapM (view s) statsObjects = Some vs ->
  Forall well_formed vs ->
  exists result s',
    combine statsObjects s = Some (Ret result, s')
    /\ ((exists r, report now result s' = Some (Ret r, s'))
        <-> Exists (fun v => is_Some (obj_get (snap_histos v)
                                        "engine.http.response_time")) vs)
    /\ (report now result s' = Some (Throw TypeError, s')
        <-> Forall (fun v => obj_get (snap_histos v)
                               "engine.http.response_time" = None) vs).
Proof.
  intros Hvs Hwf.
  destruct (combine_view _ _ _ Hvs) as (r & s' & Hrun & Hfresh & Hw & Hvs').
  exists r, s'. split; [done |].
  destruct (view_counters_loc _ _ _ Hw) as [c Hc].
  rewrite (report_view _ _ _ _ _ Hw Hc). unfold report_of.
  pose proof (merge_histogram_is_Some "engine.http.response_time" vs None) as Hex.
  rewrite absorb_all_histos by done. cbn [snap_histos obj_get].
  assert (Forall (fun v => obj_get (snap_histos v) "engine.http.response_time" = None) vs
          <-> ~ Exists (fun v => is_Some (obj_get (snap_histos v)
                                            "engine.http.response_time")) vs) as Hall.
  { rewrite <- Forall_Exists_neg. apply Forall_iff. intros v.
    by rewrite eq_None_not_Some. }
  rewrite Hall.
  destruct (fold_left (merge_histogram "engine.http.response_time") vs None)
    as [ns|].
  - assert (Exists (fun v => is_Some (obj_get (snap_histos v)
                                        "engine.http.response_time")) vs) as Hsome.
    { destruct Hex as [[[? ?]|?] _]; by eauto. }
    split; split; try done; intros; by eexists.
  - assert (~ Exists (fun v => is_Some (obj_get (snap_histos v)
                                          "engine.http.response_time")) vs) as Hnone.
    { intros Hsome. destruct Hex as [_ Hex]. by destruct Hex; [right |]. }
    split; split; try done; by intros [? ?].
Qed.

(** X20: the result of [combine] shares nothing with the snapshots that
    were there before, its inputs among them: whatever calls are made on
    the result, each of them keeps its contents, and whatever calls are
    made on one of them, the result keeps its contents. *)
Theorem combine_result_independent s statsObjects vs t vt ms :
  mapM (view s) statsObjects = Some vs ->
  view s t = Some vt ->
  exists result s' w,
    combine statsObjects s = Some (Ret result, s')
    /\ view s' result = Some w
    /\ view s' t = Some vt
    /\ (exists s2, mutate_all result ms s' = Some (Ret tt, s2)
                   /\ view s2 t = Some vt)
    /\ (exists s2, mutate_all t ms s' = Some (Ret tt, s2)
                   /\ view s2 result = Some w).
Proof.
  intros Hvs Ht. pose proof Hvs as Hall. apply mapM_Some in Hall.
  destruct (combine_run s _ vs Hall) as (s' & Hrun & Hrs).
  pose proof (result_state_view _ _ _ _ Hrs) as Hw.
  assert (extends s s') as Hext by (by destruct Hrs).
  pose proof (view_extends _ _ _ _ Hext Ht) as Ht'.
  assert (apart s' t (length (stats_objs s))) as Hapart.
  { eapply result_state_apart; [done | by eexists]. }
  eexists _, s', _. split_and!; try done.
  - destruct (mutate_all_frame ms s' (length (stats_objs s)) t vt)
      as (s2 & Hms & Hv2 & _); [by eexists | done | by apply apart_sym |].
    by exists s2.
  - destruct (mutate_all_frame ms s' t (length (stats_objs s)) _ (ex_intro _ _ Ht') Hw Hapart)
      as (s2 & Hms & Hv2 & _).
    by exists s2.
Qed.
End combine_properties.

Lemma workers_well_formed : Forall well_formed [worker0; worker1].
Proof.
  constructor; [|constructor; [|constructor]];
    (split;
     match goal with
     | |- NoDup ?l => apply (bool_decide_unpack (NoDup l)); vm_compute; exact I
     end).
Qed.

Lemma combine_merges_distributions_witness :
  mapM (view two_workers) [0; 1] = Some [worker0; worker1]
  /\ Forall well_formed [worker0; worker1]
  /\ exists result s' w,
      combine [0; 1] two_workers = Some (Ret result, s')
      /\ view s' result = Some w
      /\ obj_get (snap_histos w) "latency"
         = fold_left (fun acc v =>
                        match obj_get (snap_histos v) "latency" with
                        | Some y => Some (add (default build acc) y)
                        | None => acc
                        end) [worker0; worker1] None
      /\ (is_Some (obj_get (snap_histos w) "latency")
          <-> Exists (fun v => is_Some (obj_get (snap_histos v) "latency"))
                [worker0; worker1]).
Proof.
  split; [reflexivity |]. split; [exact workers_well_formed |].
  exact (combine_merges_distributions two_workers [0; 1] [worker0; worker1]
           "latency" eq_refl workers_well_formed).
Defined.

Lemma combine_report_witness :
  mapM (view two_workers) [0; 1] = Some [worker0; worker1]
  /\ Forall well_formed [worker0; worker1]
  /\ exists result s',
      combine [0; 1] two_workers = Some (Ret result, s')
      /\ ((exists r, report "" result s' = Some (Ret r, s'))
          <-> Exists (fun v => is_Some (obj_get (snap_histos v)
                                          "engine.http.response_time"))
                [worker0; worker1])
      /\ (report "" result s' = Some (Throw TypeError, s')
          <-> Forall (fun v => obj_get (snap_histos v)
                                 "engine.http.response_time" = None)
                [worker0; worker1]).
Proof.
  split; [reflexivity |]. split; [exact workers_well_formed |].
  exact (combine_report two_workers [0; 1] [worker0; worker1] ""
           eq_refl workers_well_formed).
Defined.

Lemma combine_result_independent_witness :
  mapM (view two_workers) [0; 1] = Some [worker0; worker1]
  /\ view two_workers 1 = Some worker1
  /\ exists result s' w,
      combine [0; 1] two_workers = Some (Ret result, s')
      /\ view s' result = Some w
      /\ view s' 1 = Some worker1
      /\ (exists s2, mutate_all result more_calls s' = Some (Ret tt, s2)
                     /\ view s2 1 = Some worker1)
      /\ (exists s2, mutate_all 1 more_calls s' = Some (Ret tt, s2)
                     /\ view s2 result = Some w).
Proof.
  split; [reflexivity |]. split; [reflexivity |].
  exact (combine_result_independent two_workers [0; 1] [worker0; worker1] 1
           worker1 more_calls eq_refl eq_refl).
Defined.

(** ** [serialize] and [deserialize] (lines 18-32, 181-191) *)

Section payloads.
Context `{HdrHistogram} `{JSON}.

Lemma extends_trans s0 s1 s2 : extends s0 s1 -> extends s1 s2 -> extends s0 s2.
Proof. intros [] []. split; by etrans. Qed.

Lemma encoded_view_get (hs : list (string * histogram)) name :
  NoDup hs.*1 ->
  obj_get (encoded_view hs []) name
  = encodeIntoBase64String <$> obj_get hs name.
Proof.
  intros Hnd. rewrite encoded_view_NoDup by done. clear Hnd.
  induction hs as [|[k h] hs IH]; [done |].
  cbn [map obj_get fst snd]. by destruct (String.eqb k name).
Qed.

(** The loop of [deserialize] only adds to what was in the store before
    the dictionary [acc] was made, however it ends. *)
Lemma decode_loop_extends s0 es s acc :
  extends s0 s -> length (histo_maps s0) <= acc ->
  is_Some (histo_maps s !! acc) ->
  exists out s',
    each es (decode_entry acc) s = Some (out, s') /\ extends s0 s'.
Proof.
  revert s. induction es as [|e es IH]; intros s Hext Hacc [m Hm].
  - by exists (Ret tt), s.
  - cbn [each]. unfold decode_entry at 1.
    destruct (decode_value e.2) as [h|]; cycle 1.
    { by exists (Throw DecodeError), s. }
    erewrite bind_Ret; cycle 1.
    { step_with (new_run Rhistos h s).
      step_by (apply read_run; hsimpl; exact Hm).
      eapply write_run. hsimpl. exact Hm. }
    apply IH; [| done |].
    + destruct Hext as [Hst Hco Hhm Hen Hhi]. split; hsimpl; try done.
      * by apply prefix_insert_ge.
      * etrans; [exact Hhi |]. by apply prefix_app_r.
    + hsimpl. rewrite list_lookup_insert_eq; [done |].
      by eapply lookup_lt_Some.
Qed.

Lemma tail_heap_extends s acc c : extends s (tail_heap s acc c).
Proof.
  unfold tail_heap. destruct (c ≫= counters_of_json);
    split; hsimpl; try done; by apply prefix_app_r.
Qed.

(** X21: the text that [serialize] returns depends on the contents of
    the snapshot alone: two snapshots with the same counters and the
    same histograms, in one store or in two, give the same text,
    whatever else the stores hold and whether or not the snapshots were
    serialized before. *)
Theorem serialize_depends_on_contents s this s' that v :
  view s this = Some v -> view s' that = Some v ->
  exists p s1 s1',
    serialize this s = Some (Ret p, s1)
    /\ serialize that s' = Some (Ret p, s1').
Proof.
  intros Hv Hv'.
  destruct (serialize_run _ _ _ Hv) as (o & cs & cc & _ & _ & _ & Hrun).
  destruct (serialize_run _ _ _ Hv') as (o' & cs' & cc' & _ & _ & _ & Hrun').
  by eexists _, _, _.
Qed.

(** X22: [serialize] makes a new dictionary, stores it in the field
    [_encodedHistograms] of the snapshot and files in it, under the name
    of each distribution, the encoding of its histogram; the text it
    returns is the JSON of an object with the counters and that
    dictionary. *)
Theorem serialize_fills_cache s this v :
  view s this = Some v -> NoDup (snap_histos v).*1 ->
  exists p s1 e em,
    serialize this s = Some (Ret p, s1)
    /\ (_encodedHistograms <$> stats_objs s1 !! this) = Some (Some e)
    /\ encoded_maps s !! e = None
    /\ encoded_maps s1 !! e = Some em
    /\ (forall name, obj_get em name
                     = encodeIntoBase64String <$> obj_get (snap_histos v) name)
    /\ JSON_parse p
       = Some (payload (Some (json_of_counters (snap_counters v)))
                       (json_of_encoded em)).
Proof.
  intros Hv Hnd.
  destruct (serialize_run _ _ _ Hv) as (o & cs & cc & Ho & _ & _ & Hrun).
  eexists _, _, (length (encoded_maps s)), (encoded_view (snap_histos v) []).
  split; [exact Hrun |]. hsimpl. split_and!.
  - rewrite list_lookup_insert_eq by (by eapply lookup_lt_Some). done.
  - by apply lookup_ge_None_2.
  - by apply list_lookup_middle.
  - intros name. by apply encoded_view_get.
  - apply JSON_parse_stringify.
Qed.

Lemma deserialize_only_allocates_aux serialized s :
  exists out s', deserialize serialized s = Some (out, s') /\ extends s s'.
Proof.
  rewrite deserialize_unfold.
  destruct (JSON_parse serialized) as [o|]; cycle 1.
  { exists (Throw SyntaxError), s. split; [done | apply extends_refl]. }
  destruct (json_prop o "encodedHistograms") as [eh|e] eqn:Heh; cycle 1.
  { exists (Throw e), s. split; [done | apply extends_refl]. }
  step_by (apply lift_run).
  step_with (new_run Rhistmaps [] s).
  destruct (decode_loop_extends s (L_collection eh)
              (rset Rhistmaps (rget Rhistmaps s ++ [[]]) s)
              (length (rget Rhistmaps s))) as (out & s1 & Hloop & Hext1).
  { split; hsimpl; try done. by apply prefix_app_r. }
  { done. }
  { hsimpl. by rewrite list_lookup_middle. }
  destruct out as [[]|e].
  - step_with Hloop.
    destruct (json_prop_not_null _ _ _ "counters" Heh) as [c Hc].
    rewrite (deserialize_tail_run _ _ _ _ Hc).
    eexists _, _. split; [done |].
    eapply extends_trans; [exact Hext1 | apply tail_heap_extends].
  - rewrite (bind_Throw _ _ _ _ _ Hloop). by eexists _, _.
Qed.

(** X23: [deserialize] always ends, with a snapshot or with an
    exception, and either way it has only added objects to the store:
    every snapshot there was has the contents it had, also when the
    decoding of a histogram fails half-way. *)
Theorem deserialize_only_allocates serialized s :
  exists out s',
    deserialize serialized s = Some (out, s')
    /\ extends s s'
    /\ forall t v, view s t = Some v -> view s' t = Some v.
Proof.
  destruct (deserialize_only_allocates_aux serialized s)
    as (out & s' & Hrun & Hext).
  exists out, s'. split_and!; try done. intros t v. by apply view_extends.
Qed.

End payloads.

(** The calls of worker 0 made on the second snapshot of another store. *)
Definition moved_worker : heap :=
  Eval vm_compute in
    store_after (b <- create ;;
                 counter b "z" 1 ;;
                 a <- create ;;
                 counter a "x" 3 ;;
                 counter a "y" 7 ;;
                 counter a "engine.http.responses_received" 30 ;;
                 addCustomStat a "engine.http.response_time" 4 ;;
                 addCustomStat a "engine.http.response_time" 9).

Lemma worker0_well_formed : well_formed worker0.
Proof.
  split;
    [apply (bool_decide_unpack (NoDup (snap_counters worker0).*1))
    |apply (bool_decide_unpack (NoDup (snap_histos worker0).*1))];
    vm_compute; exact I.
Qed.

Lemma serialize_depends_on_contents_witness :
  view two_workers 0 = Some worker0
  /\ view moved_worker 1 = Some worker0
  /\ exists p s1 s1',
      serialize 0 two_workers = Some (Ret p, s1)
      /\ serialize 1 moved_worker = Some (Ret p, s1').
Proof.
  split; [reflexivity |]. split; [reflexivity |].
  exact (serialize_depends_on_contents two_workers 0 moved_worker 1 worker0
           eq_refl eq_refl).
Defined.

Lemma serialize_fills_cache_witness :
  view two_workers 0 = Some worker0
  /\ NoDup (snap_histos worker0).*1
  /\ exists p s1 e em,
      serialize 0 two_workers = Some (Ret p, s1)
      /\ (_encodedHistograms <$> stats_objs s1 !! 0) = Some (Some e)
      /\ encoded_maps two_workers !! e = None
      /\ encoded_maps s1 !! e = Some em
      /\ (forall name, obj_get em name
                       = encodeIntoBase64String <$> obj_get (snap_histos worker0) name)
      /\ JSON_parse p
         = Some (payload (Some (json_of_counters (snap_counters worker0)))
                         (json_of_encoded em)).
Proof.
  split; [reflexivity |]. split; [exact worker0_names_distinct |].
  exact (serialize_fills_cache two_workers 0 worker0 eq_refl worker0_names_distinct).
Defined.


(** ** [combine] and the contents of its inputs *)

Section combine_contents.
Context `{HdrHistogram} `{JSON}.






Lemma absorb_well_formed w v : well_formed w -> well_formed (absorb w v).
Proof.
  intros [Hc Hh]. split; cbn [absorb snap_counters snap_histos].
  - unfold absorb_counters. revert Hc. generalize (snap_counters w).
    induction (snap_counters v) as [|e m IH]; intros rm Hrm; [done |].
    cbn [fold_left]. apply IH. by apply obj_set_NoDup.
  - unfold absorb_histos. revert Hh. generalize (snap_histos w).
    induction (snap_histos v) as [|e m IH]; intros rm Hrm; [done |].
    cbn [fold_left]. apply IH. by apply obj_set_NoDup.
Qed.

Lemma absorb_all_well_formed vs w :
  well_formed w -> well_formed (fold_left absorb vs w).
Proof.
  revert w. induction vs as [|v vs IH]; intros w Hw; [done |].
  cbn [fold_left]. by apply IH, absorb_well_formed.
Qed.


(** X26: counters can be combined in stages: combining the result of
    [combine] on a first list with a second list gives every counter the
    value that [combine] gives it on the two lists at once. *)
Theorem combine_in_stages s l1 l2 vs1 vs2 k :
  mapM (view s) l1 = Some vs1 -> mapM (view s) l2 = Some vs2 ->
  Forall well_formed vs1 -> Forall well_formed vs2 ->
  exists r1 s1 r s2 w r' s' w',
    combine l1 s = Some (Ret r1, s1)
    /\ combine (r1 :: l2) s1 = Some (Ret r, s2) /\ view s2 r = Some w
    /\ combine (l1 ++ l2)%list s = Some (Ret r', s') /\ view s' r' = Some w'
    /\ obj_get (snap_counters w) k = obj_get (snap_counters w') k.
Proof.
  intros Hvs1 Hvs2 Hwf1 Hwf2.
  pose proof Hvs1 as Hall1. apply mapM_Some in Hall1.
  destruct (combine_run s _ vs1 Hall1) as (s1 & Hrun1 & Hrs1).
  pose proof (result_state_view _ _ _ _ Hrs1) as Hw1.
  assert (extends s s1) as Hext by (by destruct Hrs1).
  pose proof (mapM_view_extends _ _ _ _ Hext Hvs2) as Hvs2'.
  assert (mapM (view s1) (length (stats_objs s) :: l2)
          = Some (fold_left absorb vs1 (Snapshot [] []) :: vs2)) as Hstage.
  { apply mapM_Some. constructor; [done | by apply mapM_Some]. }
  assert (mapM (view s) (l1 ++ l2)%list = Some (vs1 ++ vs2)%list) as Hflat.
  { apply mapM_Some, Forall2_app; by apply mapM_Some. }
  destruct (combine_view _ _ _ Hstage) as (r & s2 & Hrun & _ & Hw & _).
  destruct (combine_view _ _ _ Hflat) as (r' & s' & Hrun' & _ & Hw' & _).
  eexists _, s1, r, s2, _, r', s', _. split_and!; try done.
  rewrite !absorb_all_counters; cycle 1.
  { by apply Forall_app. }
  { constructor; [|done]. apply absorb_all_well_formed. by split; constructor. }
  rewrite fold_left_app. cbn [fold_left snap_counters obj_get].
  f_equal.
  assert (forall w0, merge_counter k None w0 = obj_get (snap_counters w0) k) as Hm.
  { intros w0. unfold merge_counter, add_value.
    by destruct (obj_get (snap_counters w0) k). }
  rewrite Hm. by rewrite absorb_all_counters.
Qed.
End combine_contents.


Lemma combine_in_stages_witness :
  mapM (view two_workers) [0] = Some [worker0]
  /\ mapM (view two_workers) [1; 0] = Some [worker1; worker0]
  /\ Forall well_formed [worker0]
  /\ Forall well_formed [worker1; worker0]
  /\ exists r1 s1 r s2 w r' s' w',
      combine [0] two_workers = Some (Ret r1, s1)
      /\ combine (r1 :: [1; 0]) s1 = Some (Ret r, s2) /\ view s2 r = Some w
      /\ combine ([0] ++ [1; 0])%list two_workers = Some (Ret r', s')
      /\ view s' r' = Some w'
      /\ obj_get (snap_counters w) "x" = obj_get (snap_counters w') "x".
Proof.
  assert (well_formed worker1) as Hwf1.
  { split;
      [apply (bool_decide_unpack (NoDup (snap_counters worker1).*1))
      |apply (bool_decide_unpack (NoDup (snap_histos worker1).*1))];
      vm_compute; exact I. }
  assert (Forall well_formed [worker0]) as Hwf.
  { constructor; [exact worker0_well_formed | constructor]. }
  assert (Forall well_formed [worker1; worker0]) as Hwf'.
  { constructor; [exact Hwf1 | exact Hwf]. }
  split; [reflexivity |]. split; [reflexivity |].
  split; [exact Hwf |]. split; [exact Hwf' |].
  exact (combine_in_stages two_workers [0] [1; 0] [worker0] [worker1; worker0] "x"
           eq_refl eq_refl Hwf Hwf').
Defined.
